(** * Detect_demo: the detection pipeline of [src/Detect_demo.py]

    A shallow embedding of the pure core of the Streamlit detector:
    the geometry normaliser [_to_pixels], the response unpacker
    ([_extract_detections], [_parse_zip]), the detection requester
    [_request_zip], the uploader [_upload_asset], the fallback annotator
    [annotate] and the orchestrator [detect].

    Python values are an inductive type of JSON-shaped data, Python
    floats are IEEE binary64 ([PrimFloat]), Python ints are [Z], and a
    raised exception is the [Raise] branch of [result].  What the source
    obtains from libraries (zipfile, json, requests, PIL, the text of
    [float(str)] and [repr]) enters as an interface: a class whose
    methods the definitions call, or a record of oracles. *)

From Stdlib Require Import ZArith List String Ascii Bool Lia Floats.
From Stdlib Require Uint63.
Import ListNotations.

#[local] Set Warnings "-inexact-float,-register-all".
#[local] Open Scope string_scope.
#[local] Open Scope Z_scope.

(** ** Exceptions and the error monad *)

Inductive exn : Type :=
| TypeError
| ValueError
| OverflowError
| AttributeError
| KeyError
| HTTPError (status : Z)
| LibraryError (origin : string).

Inductive result (A : Type) : Type :=
| Ok (a : A)
| Raise (e : exn).

Arguments Ok {A} a.
Arguments Raise {A} e.

Definition bind {A B : Type} (m : result A) (k : A -> result B) : result B :=
  match m with
  | Ok a => k a
  | Raise e => Raise e
  end.

Notation "x <- m ;; k" := (bind m (fun x => k))
  (at level 61, m at next level, right associativity).
Notation "' p <- m ;; k" := (bind m (fun x => let p := x in k))
  (at level 61, p pattern, m at next level, right associativity).

Definition is_ok {A : Type} (m : result A) : bool :=
  match m with Ok _ => true | Raise _ => false end.

(** ** Values *)

Definition bytes : Type := list Byte.byte.

(** What [json.loads] can return, which is all the pipeline ever holds.
    A dict is an association list read front to back: the first binding
    of a key is the live one. *)
Inductive value : Type :=
| VNone
| VBool (b : bool)
| VInt (z : Z)
| VFloat (f : float)
| VStr (s : string)
| VList (l : list value)
| VDict (d : list (string * value)).

Definition dict : Type := list (string * value).

Fixpoint lookup (k : string) (d : dict) : option value :=
  match d with
  | [] => None
  | (k', v) :: rest => if String.eqb k k' then Some v else lookup k rest
  end.

(** [d.get(k, dflt)] and [d.get(k)]. *)
Definition get_default (d : dict) (k : string) (dflt : value) : value :=
  match lookup k d with Some v => v | None => dflt end.

Definition get (d : dict) (k : string) : value := get_default d k VNone.

(** Python truth value testing. *)
Definition truthy (v : value) : bool :=
  match v with
  | VNone => false
  | VBool b => b
  | VInt z => negb (z =? 0)
  | VFloat f => negb (f =? 0)%float
  | VStr s => negb (String.eqb s "")
  | VList l => match l with [] => false | _ => true end
  | VDict d => match d with [] => false | _ => true end
  end.

(** [a or b] on values whose evaluation cannot raise. *)
Definition or_ (a b : value) : value := if truthy a then a else b.

(** [a or <expr>] where the right operand may raise; it is only looked at
    when [a] is falsy. *)
Definition or_else (a : value) (b : result value) : result value :=
  if truthy a then Ok a else b.

(** ** Numbers *)

(** int -> float as CPython does it: correctly rounded to nearest-even,
    OverflowError when the rounded value leaves binary64. *)
Definition float_of_Z (z : Z) : result float :=
  match binary_normalize 53 1024 z 0 false with
  | S754_infinity _ => Raise OverflowError
  | sf => Ok (SF2Prim sf)
  end.

Definition float_of_bool (b : bool) : float := (if b then 1 else 0)%float.

(** The builtins whose text side is not reproduced here: the parser
    behind [float(str)] ([None] is ValueError), [str()] of a value that
    is not itself a str, and the format [{:.2f}] of a float. *)
Class Builtins : Type := {
  float_of_str : string -> option float;
  repr : value -> string;
  format_2f : float -> string
}.

Section Core.

Context `{Builtins}.

(** [float(v)]. *)
Definition float_ (v : value) : result float :=
  match v with
  | VNone => Raise TypeError
  | VBool b => Ok (float_of_bool b)
  | VInt z => float_of_Z z
  | VFloat f => Ok f
  | VStr s => match float_of_str s with Some f => Ok f | None => Raise ValueError end
  | VList _ => Raise TypeError
  | VDict _ => Raise TypeError
  end.

(** [str(v)]. *)
Definition str_ (v : value) : string :=
  match v with
  | VStr s => s
  | _ => repr v
  end.

(** [a - x] with [x] already a float. *)
Definition sub_ (a : value) (x : float) : result value :=
  match a with
  | VBool b => Ok (VFloat (float_of_bool b - x)%float)
  | VInt z => f <- float_of_Z z ;; Ok (VFloat (f - x)%float)
  | VFloat f => Ok (VFloat (f - x)%float)
  | _ => Raise TypeError
  end.

(** [x *= n] with [x] a float and [n] an int. *)
Definition mul_int (x : float) (n : Z) : result float :=
  f <- float_of_Z n ;; Ok (x * f)%float.

(** [0 <= v <= 1]. *)
Definition in_unit (v : float) : bool := ((0 <=? v) && (v <=? 1))%float.

(** ** Geometry Normalizer *)

(** Lines 174-177 of [_to_pixels]: position and extent as read. *)
Definition read_box (box : dict) : result (float * float * float * float) :=
  x <- float_ (or_ (or_ (get box "x") (get box "xmin")) (VInt 0)) ;;
  y <- float_ (or_ (or_ (get box "y") (get box "ymin")) (VInt 0)) ;;
  w <- (v <- or_else (get box "width") (sub_ (get_default box "xmax" (VInt 0)) x) ;; float_ v) ;;
  h <- (v <- or_else (get box "height") (sub_ (get_default box "ymax" (VInt 0)) y) ;; float_ v) ;;
  Ok (x, y, w, h).

(** Lines 178-180 (and 181-183): one axis against one image dimension. *)
Definition scale_axis (p e : float) (dim : Z) : result (float * float) :=
  if in_unit p && in_unit e then
    p' <- mul_int p dim ;;
    e' <- mul_int e dim ;;
    Ok (p', e')
  else Ok (p, e).

Definition _to_pixels (box : value) (width height : Z) : result (list float) :=
  match box with
  | VDict b =>
      '(x, y, w, h) <- read_box b ;;
      '(x, w) <- scale_axis x w width ;;
      '(y, h) <- scale_axis y h height ;;
      Ok [x; y; x + w; y + h]%float
  | _ => Raise AttributeError
  end.


(** ** Response Unpacker: records *)

Definition list_keys : list string :=
  ["predictions"; "detections"; "objects"; "results"; "data"].

(** The [for key in (...)] loop of lines 128-133: the first key whose
    value is a list; [None] is the loop's [else] branch. *)
Fixpoint find_items (keys : list string) (data : dict) : option (list value) :=
  match keys with
  | [] => None
  | key :: rest =>
      match get data key with
      | VList l => Some l
      | _ => find_items rest data
      end
  end.

Definition items_of (data : value) : list value :=
  match data with
  | VDict d =>
      match find_items list_keys d with
      | Some l => l
      | None => [data]
      end
  | VList l => l
  | _ => []
  end.

(** Lines 141-149: the detection built from one mapping record. *)
Definition detection_of (item : dict) (width height : Z) : result value :=
  let bbox_info :=
    or_ (or_ (or_ (get item "bbox") (get item "box")) (get item "bounding_box")) (VDict []) in
  bbox <- _to_pixels bbox_info width height ;;
  let label :=
    str_ (or_ (or_ (or_ (get item "label") (get item "class")) (get item "text")) (VStr "object")) in
  confidence <- float_ (or_ (or_ (get item "confidence") (get item "score")) (VInt 0)) ;;
  Ok (VDict [("label", VStr label);
             ("confidence", VFloat confidence);
             ("bbox", VList (map VFloat bbox))]).

(** Lines 138-149: the loop over [items]; a non-mapping is skipped. *)
Fixpoint extract_loop (items : list value) (width height : Z) : result (list value) :=
  match items with
  | [] => Ok []
  | VDict item :: rest =>
      det <- detection_of item width height ;;
      dets <- extract_loop rest width height ;;
      Ok (det :: dets)
  | _ :: rest => extract_loop rest width height
  end.

Definition _extract_detections (data : value) (width height : Z) : result (list value) :=
  extract_loop (items_of data) width height.

End Core.

(** ** Response Unpacker: the archive *)

Definition lower_ascii (c : ascii) : ascii :=
  let n := nat_of_ascii c in
  if ((65 <=? n) && (n <=? 90))%nat then ascii_of_nat (n + 32) else c.

(** [str.lower()], exact on the ASCII letters, which is all a suffix test
    against an ASCII extension can see. *)
Fixpoint lower (s : string) : string :=
  match s with
  | EmptyString => EmptyString
  | String c rest => String (lower_ascii c) (lower rest)
  end.

Definition endswith (s suffix : string) : bool :=
  let n := String.length s in
  let m := String.length suffix in
  (m <=? n)%nat && String.eqb (substring (n - m) m s) suffix.

Definition endswith_any (s : string) (suffixes : list string) : bool :=
  existsb (endswith s) suffixes.

Definition image_suffixes : list string := [".png"; ".jpg"; ".jpeg"; ".webp"].

Definition is_image_name (name : string) : bool :=
  endswith_any (lower name) image_suffixes.

Definition is_json_name (name : string) : bool :=
  endswith (lower name) ".json".

Definition is_empty (b : bytes) : bool :=
  match b with [] => true | _ => false end.

(** An open [zipfile.ZipFile] as the source uses it: the listing and the
    content of the entry a name resolves to. *)
Record ZipFile : Type := {
  namelist : list string;
  read : string -> result bytes
}.

(** zipfile, json and uuid: opening an archive, decoding and parsing a
    JSON text ([json.loads(raw.decode("utf-8"))], [response.json()]) and
    [str(uuid.UUID(v))]. *)
Class Libraries : Type := {
  ZipFile_open : bytes -> result ZipFile;
  json_loads : bytes -> result value;
  uuid_canonical : value -> result string
}.

Section Unpacker.

Context `{Builtins} `{Libraries}.

(** Lines 160-169, one pass of the [for name in zf.namelist()] loop per
    element, with the two locals threaded through. *)
Fixpoint parse_entries (zf : ZipFile) (width height : Z) (names : list string)
    (detections : list value) (annotated : bytes) : result (list value * bytes) :=
  match names with
  | [] => Ok (detections, annotated)
  | name :: rest =>
      annotated <- (if is_empty annotated && is_image_name name
                    then read zf name else Ok annotated) ;;
      if is_json_name name then
        match (raw <- read zf name ;; json_loads raw) with
        | Raise _ => parse_entries zf width height rest detections annotated
        | Ok data =>
            found <- _extract_detections data width height ;;
            parse_entries zf width height rest (detections ++ found) annotated
        end
      else parse_entries zf width height rest detections annotated
  end.

Definition _parse_zip (zip_bytes : bytes) (width height : Z) : result (list value * bytes) :=
  if is_empty zip_bytes then Ok ([], [])
  else
    zf <- ZipFile_open zip_bytes ;;
    parse_entries zf width height (namelist zf) [] [].

End Unpacker.

(** ** HTTP *)

Record response : Type := {
  status_code : Z;
  content : bytes;
  headers : list (string * string)
}.

(** requests' [Response.raise_for_status]: HTTPError on 4xx and 5xx. *)
Definition raise_for_status (r : response) : result unit :=
  if (400 <=? status_code r) && (status_code r <? 600)
  then Raise (HTTPError (status_code r)) else Ok tt.

(** requests' header mapping, whose keys compare without case. *)
Fixpoint headers_get (hs : list (string * string)) (k dflt : string) : string :=
  match hs with
  | [] => dflt
  | (k', v) :: rest =>
      if String.eqb (lower k') (lower k) then v else headers_get rest k dflt
  end.

(** The remote service as the pipeline meets it.  The request headers and
    bodies are functions of the call's arguments, so an oracle per URL
    covers every way the service can depend on them; [http_get url k] is
    the answer to the k-th GET the call issues (or what the transport
    raises). *)
Record transport : Type := {
  http_post : string -> result response;
  http_put : string -> result response;
  http_get : string -> nat -> result response
}.

Definition NVAI_URL : string := "https://ai.api.nvidia.com/v1/cv/nvidia/nv-grounding-dino".
Definition NVAI_POLLING_URL : string := "https://api.nvcf.nvidia.com/v2/nvcf/pexec/status/".
Definition ASSETS_URL : string := "https://api.nvcf.nvidia.com/v2/nvcf/assets".
Definition MAX_RETRIES : Z := 5.

(** ** Detection Requester *)

(** The locals of the polling loop, and the number of GETs issued so far. *)
Record poll_state : Type := {
  retries : Z;
  polls : nat
}.

Inductive iteration : Type :=
| Continue (s : poll_state)
| Finished (r : result bytes) (s : poll_state).

(** Lines 114-120: one pass of the [while] body. *)
Definition poll_body (tr : transport) (poll_url : string) (s : poll_state) : iteration :=
  let polled := {| retries := retries s; polls := S (polls s) |} in
  match http_get tr poll_url (polls s) with
  | Raise e => Finished (Raise e) polled
  | Ok poll =>
      if status_code poll =? 200 then Finished (Ok (content poll)) polled
      else if negb (status_code poll =? 202) then Finished (Ok []) polled
      else Continue {| retries := retries s - 1; polls := S (polls s) |}
  end.

(** Lines 113-121: [while retries > 0: ...] followed by [return b""];
    [None] is out of fuel. *)
Fixpoint poll_loop (fuel : nat) (tr : transport) (poll_url : string) (s : poll_state)
    : option (result bytes * poll_state) :=
  match fuel with
  | O => None
  | S fuel' =>
      if retries s >? 0 then
        match poll_body tr poll_url s with
        | Finished r s' => Some (r, s')
        | Continue s' => poll_loop fuel' tr poll_url s'
        end
      else Some (Ok [], s)
  end.

Definition fresh_budget : poll_state := {| retries := MAX_RETRIES; polls := 0 |}.

(** Lines 107 and 111: the status address built from the submit response. *)
Definition poll_url_of (response : response) : string :=
  let reqid := headers_get (headers response) "NVCF-REQID" "" in
  NVAI_POLLING_URL ++ reqid.

(** Lines 103-123, with the loop's final state kept beside the outcome. *)
Definition request_run (fuel : nat) (tr : transport) (asset_id prompt_text content_type : string)
    : option (result bytes * poll_state) :=
  match http_post tr NVAI_URL with
  | Raise e => Some (Raise e, fresh_budget)
  | Ok response =>
      if status_code response =? 200 then Some (Ok (content response), fresh_budget)
      else if status_code response =? 202 then
        poll_loop fuel tr (poll_url_of response) fresh_budget
      else
        Some (_ <- raise_for_status response ;; Ok (content response), fresh_budget)
  end.

(** One unit of fuel per retry and one for the test that leaves the loop. *)
Definition enough_fuel : nat := S (Z.to_nat MAX_RETRIES).

Definition _request_zip (tr : transport) (asset_id prompt_text content_type : string)
    : result bytes :=
  match request_run enough_fuel tr asset_id prompt_text content_type with
  | Some (r, _) => r
  | None => Raise (LibraryError "polling")
  end.

(** ** Asset Uploader *)

(** [meta[key]]. *)
Definition subscript (meta : value) (key : string) : result value :=
  match meta with
  | VDict d => match lookup key d with Some v => Ok v | None => Raise KeyError end
  | _ => Raise TypeError
  end.

Section Uploader.

Context `{Libraries}.

Definition _upload_asset (tr : transport) (data : bytes) (description content_type : string)
    : result string :=
  response <- http_post tr ASSETS_URL ;;
  _ <- raise_for_status response ;;
  meta <- json_loads (content response) ;;
  upload_url <- subscript meta "uploadUrl" ;;
  asset <- subscript meta "assetId" ;;
  asset_id <- uuid_canonical asset ;;
  response <- match upload_url with
              | VStr url => http_put tr url
              | _ => Raise (LibraryError "requests")
              end ;;
  _ <- raise_for_status response ;;
  Ok asset_id.

End Uploader.

(** ** Fallback Annotator *)

(** PIL as [annotate] and [detect] use it.  Drawing mutates the image in
    place; here each call hands the image on.  [textbbox] is
    [draw.textbbox((0, 0), text, font=load_default())]. *)
Class Imaging : Type := {
  image : Type;
  Image_open : bytes -> result image;
  size : image -> Z * Z;
  convert : image -> string -> result image;
  draw_rectangle : image -> list float -> option string -> option string -> Z -> result image;
  textbbox : string -> float * float * float * float;
  draw_text : image -> float * float -> string -> string -> result image;
  save : image -> string -> result bytes
}.

Definition colors : list string :=
  ["#f97316"; "#2563eb"; "#16a34a"; "#db2777"; "#7c3aed"].

(** [max(a, b)]: the first argument unless the second is greater. *)
Definition max_ (a b : float) : float := if (a <? b)%float then b else a.

Section Annotator.

Context `{Builtins} `{Imaging}.

(** A coordinate as PIL reads it, a C double. *)
Definition coord (v : value) : result float :=
  match v with
  | VBool b => Ok (float_of_bool b)
  | VInt z => float_of_Z z
  | VFloat f => Ok f
  | _ => Raise TypeError
  end.

(** [x_min, y_min, x_max, y_max = bbox] for a truthy [bbox]. *)
Definition unpack4 (bbox : value) : result (float * float * float * float) :=
  match bbox with
  | VList [a; b; c; d] =>
      a <- coord a ;; b <- coord b ;; c <- coord c ;; d <- coord d ;;
      Ok (a, b, c, d)
  | VList _ => Raise ValueError
  | VStr s => if (String.length s =? 4)%nat then Raise TypeError else Raise ValueError
  | VDict d => if (List.length d =? 4)%nat then Raise TypeError else Raise ValueError
  | _ => Raise TypeError
  end.

(** [f"{score:.2f}"] for a score that is not None. *)
Definition format_score (score : value) : result string :=
  match score with
  | VBool b => Ok (format_2f (float_of_bool b))
  | VInt z => f <- float_of_Z z ;; Ok (format_2f f)
  | VFloat f => Ok (format_2f f)
  | VStr _ => Raise ValueError
  | _ => Raise TypeError
  end.

(** Lines 199-202: the text drawn for one detection. *)
Definition label_text (item : dict) : result string :=
  let text := get_default item "label" (VStr "object") in
  let score := get item "confidence" in
  match score with
  | VNone => match text with VStr s => Ok s | _ => Raise TypeError end
  | _ =>
      shown <- format_score score ;;
      match text with VStr s => Ok (s ++ " " ++ shown) | _ => Raise TypeError end
  end.

(** Lines 192-212: one pass of the [for idx, item in enumerate(...)] body. *)
Definition annotate_item (img : image) (idx : nat) (item : value) : result image :=
  match item with
  | VDict d =>
      let bbox := get d "bbox" in
      if negb (truthy bbox) then Ok img
      else
        '(x_min, y_min, x_max, y_max) <- unpack4 bbox ;;
        let color := nth (idx mod List.length colors) colors "" in
        img <- draw_rectangle img [x_min; y_min; x_max; y_max] None (Some color) 3 ;;
        text <- label_text d ;;
        let '(t0, t1, t2, t3) := textbbox text in
        let padding := 3%float in
        let background :=
          (x_min,
           max_ 0 (y_min - (t3 - t1) - padding * 2),
           x_min + (t2 - t0) + padding * 2,
           max_ ((t3 - t1) + padding * 2) y_min)%float in
        let '(b0, b1, b2, b3) := background in
        img <- draw_rectangle img [b0; b1; b2; b3] (Some color) None 1 ;;
        draw_text img (b0 + padding, b1 + padding)%float text "white"
  | _ => Raise AttributeError
  end.

Fixpoint annotate_loop (img : image) (idx : nat) (detections : list value) : result image :=
  match detections with
  | [] => Ok img
  | item :: rest =>
      img <- annotate_item img idx item ;;
      annotate_loop img (S idx) rest
  end.

Definition annotate (image_bytes : bytes) (detections : list value) : result bytes :=
  img <- Image_open image_bytes ;;
  img <- convert img "RGB" ;;
  img <- annotate_loop img 0 detections ;;
  save img "PNG".

End Annotator.

(** ** Pipeline Orchestrator *)

Section Orchestrator.

Context `{Builtins} `{Libraries} `{Imaging}.

Definition detect (tr : transport) (image_bytes : bytes) (prompt_text content_type : string)
    : result (list value * bytes) :=
  let content_type := if String.eqb content_type "" then "image/png" else content_type in
  asset_id <- _upload_asset tr image_bytes "Input Asset" content_type ;;
  zip_bytes <- _request_zip tr asset_id prompt_text content_type ;;
  img <- Image_open image_bytes ;;
  let '(width, height) := size img in
  '(detections, annotated_bytes) <- _parse_zip zip_bytes width height ;;
  if is_empty annotated_bytes then
    annotated_bytes <- annotate image_bytes detections ;;
    Ok (detections, annotated_bytes)
  else Ok (detections, annotated_bytes).

End Orchestrator.

(** ** The specification's readings, for comparison with the code *)

(** One axis as section 4.1 words it: both members scaled when both lie
    in the unit range, both kept otherwise. *)
Definition unit_scaled (p e dim : float) : float * float :=
  if in_unit p && in_unit e then (p * dim, e * dim)%float else (p, e).

(** A value the normaliser can take as a number. *)
Definition numeric (v : value) : bool :=
  match v with
  | VBool _ => true
  | VInt z => is_ok (float_of_Z z)
  | VFloat _ => true
  | _ => false
  end.

Definition numeric_at (d : dict) (k : string) : bool :=
  match lookup k d with
  | Some v => numeric v
  | None => true
  end.

Definition box_keys : list string :=
  ["x"; "xmin"; "y"; "ymin"; "width"; "height"; "xmax"; "ymax"].

(** A bounding-box record whose fields, where present, are numbers. *)
Definition numeric_box (box : dict) : bool :=
  forallb (numeric_at box) box_keys.

Section Readings.

Context `{Builtins}.

(** The extent as the specification words it: the size field when
    present, else the far edge minus the position, else 0. *)
Definition claimed_extent (box : dict) (size_key max_key : string) (pos : float)
    : result float :=
  match lookup size_key box with
  | Some v => float_ v
  | None =>
      match lookup max_key box with
      | Some m => v <- sub_ m pos ;; float_ v
      | None => Ok 0%float
      end
  end.

End Readings.

Definition none_or_numeric (v : value) : Prop := v = VNone \/ numeric v = true.

Definition label_keys : list string := ["label"; "class"; "text"].
Definition confidence_keys : list string := ["confidence"; "score"].

(** The value under the first of [keys] that the record holds at all. *)
Fixpoint first_present (keys : list string) (d : dict) : option value :=
  match keys with
  | [] => None
  | k :: rest =>
      match lookup k d with
      | Some v => Some v
      | None => first_present rest d
      end
  end.

(** The first truthy value among [keys], [dflt] when there is none. *)
Fixpoint first_truthy (keys : list string) (d : dict) (dflt : value) : value :=
  match keys with
  | [] => dflt
  | k :: rest => if truthy (get d k) then get d k else first_truthy rest d dflt
  end.

(** The mapping records of a list, in order. *)
Fixpoint mappings (items : list value) : list dict :=
  match items with
  | [] => []
  | VDict d :: rest => d :: mappings rest
  | _ :: rest => mappings rest
  end.

(** A well-formed record: a mapping whose bounding box, where it has
    one, is a mapping of numbers, and whose confidence fields, where
    present, are numbers. *)
Definition well_formed_record (v : value) : bool :=
  match v with
  | VDict item =>
      match or_ (or_ (or_ (get item "bbox") (get item "box")) (get item "bounding_box"))
                (VDict []) with
      | VDict box => numeric_box box
      | _ => false
      end
      && numeric_at item "confidence" && numeric_at item "score"
  | _ => false
  end.

(** The shape of a detection: a str, a float and four floats. *)
Definition detection_shape (det : value) : Prop :=
  exists (s : string) (c x0 y0 x1 y1 : float),
    det = VDict [("label", VStr s);
                 ("confidence", VFloat c);
                 ("bbox", VList [VFloat x0; VFloat y0; VFloat x1; VFloat y1])].

(** Every entry named like a raster image can be read. *)
Definition images_readable (zf : ZipFile) : bool :=
  forallb (fun name => implb (is_image_name name) (is_ok (read zf name))) (namelist zf).

(** The preview as section 4.2 words it: the content of the first entry
    whose name ends in a raster extension. *)
Definition claimed_preview (zf : ZipFile) : result bytes :=
  match find is_image_name (namelist zf) with
  | Some name => read zf name
  | None => Ok []
  end.

(** The content of the first entry that is named like a raster image and
    is not empty; empty when there is none. *)
Fixpoint first_nonempty_image (zf : ZipFile) (names : list string) : bytes :=
  match names with
  | [] => []
  | name :: rest =>
      if is_image_name name then
        match read zf name with
        | Ok (b :: bs) => b :: bs
        | _ => first_nonempty_image zf rest
        end
      else first_nonempty_image zf rest
  end.

Section DocumentReadings.

Context `{Builtins} `{Libraries}.

(** What one archive entry adds to the detections: nothing unless it is
    a JSON document that parses, then the detections of its records. *)
Definition entry_detections (zf : ZipFile) (width height : Z) (name : string)
    : result (list value) :=
  if is_json_name name then
    match (raw <- read zf name ;; json_loads raw) with
    | Raise _ => Ok []
    | Ok data => _extract_detections data width height
    end
  else Ok [].

End DocumentReadings.

(** The k-th poll is answered, with status 202. *)
Definition pending_at (tr : transport) (poll_url : string) (k : nat) : Prop :=
  exists poll, http_get tr poll_url k = Ok poll /\ status_code poll = 202.

(** ** Example data *)

(** A runtime for closed examples: no string parses as a float, every
    non-str prints as ["?"] and every float formats as ["0.00"]. *)
Definition demo_builtins : Builtins :=
  {| float_of_str := fun _ => None;
     repr := fun _ => "?";
     format_2f := fun _ => "0.00" |}.

Definition scenario_box : dict :=
  [("x", VFloat 0.1); ("y", VFloat 0.1); ("width", VFloat 0.2); ("height", VFloat 0.2)].

(** A pixel box whose [width] is present and zero. *)
Definition zero_width_box : dict := [("x", VInt 10); ("width", VInt 0); ("xmax", VInt 50)].

(** A spec float that is not NaN and carries the sign [sx]. *)
Definition signed_as (sx : bool) (sf : spec_float) : Prop :=
  match sf with
  | S754_zero s | S754_infinity s | S754_finite s _ _ => s = sx
  | S754_nan => False
  end.

(** A record whose first label and confidence fields are present but falsy. *)
Definition falsy_first_record : dict :=
  [("label", VStr ""); ("class", VStr "cat"); ("confidence", VInt 0); ("score", VFloat 0.5)].

Definition cat_record : value :=
  VDict [("label", VStr "cat"); ("confidence", VFloat 0.5); ("bbox", VDict scenario_box)].

Definition dog_record : value :=
  VDict [("class", VStr "dog"); ("box", VDict [("xmin", VInt 50); ("ymin", VInt 60);
                                                ("xmax", VInt 150); ("ymax", VInt 260)])].

Definition demo_document : value :=
  VDict [("predictions", VList [cat_record; dog_record])].

Definition one_byte : bytes := [Byte.x50].

(** An archive with a preview and one JSON document. *)
Definition demo_archive : ZipFile :=
  {| namelist := ["preview.PNG"; "result.json"];
     read := fun _ => Ok one_byte |}.

(** An archive whose first image entry is empty. *)
Definition empty_first_archive : ZipFile :=
  {| namelist := ["a.png"; "b.png"];
     read := fun name => if String.eqb name "a.png" then Ok [] else Ok one_byte |}.

(** Libraries for closed examples: every byte string opens as [zf], every
    text parses to [data] and every identifier is taken as it is. *)
Definition demo_libraries (zf : ZipFile) (data : value) : Libraries :=
  {| ZipFile_open := fun _ => Ok zf;
     json_loads := fun _ => Ok data;
     uuid_canonical := fun v => match v with VStr s => Ok s | _ => Raise ValueError end |}.

(** Transports for closed examples.  The submit is accepted with 202 in
    each; the polls answer 202, 202, 200 in the first, 202 throughout in
    the second, and 202 then 503 in the third. *)
Definition answer (status : Z) (body : bytes) : response :=
  {| status_code := status; content := body; headers := [("NVCF-REQID", "r1")] |}.

Definition done_body : bytes := [Byte.x50; Byte.x4b].

Definition third_poll_transport : transport :=
  {| http_post := fun _ => Ok (answer 202 []);
     http_put := fun _ => Ok (answer 200 []);
     http_get := fun _ k => Ok (if (k <? 2)%nat then answer 202 one_byte else answer 200 done_body) |}.

Definition pending_transport : transport :=
  {| http_post := fun _ => Ok (answer 202 []);
     http_put := fun _ => Ok (answer 200 []);
     http_get := fun _ _ => Ok (answer 202 one_byte) |}.

Definition failing_poll_transport : transport :=
  {| http_post := fun _ => Ok (answer 202 []);
     http_put := fun _ => Ok (answer 200 []);
     http_get := fun _ k => Ok (if (k <? 1)%nat then answer 202 one_byte else answer 503 one_byte) |}.

Definition failing_submit_transport : transport :=
  {| http_post := fun _ => Ok (answer 500 one_byte);
     http_put := fun _ => Ok (answer 200 []);
     http_get := fun _ _ => Ok (answer 200 done_body) |}.

(** An imaging library for closed examples: an image is its bytes, every
    image is 800x600, drawing changes nothing and the PNG encoding is the
    signature byte followed by the image. *)
Definition demo_imaging : Imaging :=
  {| image := bytes;
     Image_open := fun b => if is_empty b then Raise (LibraryError "PIL") else Ok b;
     size := fun _ => (800, 600);
     convert := fun img _ => Ok img;
     draw_rectangle := fun img _ _ _ _ => Ok img;
     textbbox := fun _ => (0, 0, 40, 11)%float;
     draw_text := fun img _ _ _ => Ok img;
     save := fun img _ => Ok (Byte.x89 :: img) |}.

(** An archive with one JSON document and no image. *)
Definition json_only_archive : ZipFile :=
  {| namelist := ["result.json"];
     read := fun _ => Ok one_byte |}.

(** A text that serves both as the uploader's negotiation answer and as
    a detection document. *)
Definition demo_answer : value :=
  VDict [("uploadUrl", VStr "https://upload.example/a");
         ("assetId", VStr "3f2b8c1e-0000-4000-8000-000000000001");
         ("predictions", VList [cat_record])].

(** ** Credentials and request headers *)

(** [os.getenv(k)]: the variable's text, None when it is not set. *)
Fixpoint getenv (environ : list (string * string)) (k : string) : value :=
  match environ with
  | [] => VNone
  | (k', v) :: rest => if String.eqb k k' then VStr v else getenv rest k
  end.

(** [st.secrets.get(k)].  The secrets are loaded on the first access;
    [None] is a run with no secrets file that can be loaded, where the
    access raises instead of returning a default. *)
Definition secrets_get (secrets : option dict) (k : string) : result value :=
  match secrets with
  | None => Raise (LibraryError "streamlit")
  | Some loaded => Ok (get loaded k)
  end.

(** Lines 44-52: the [or] chain asks the secrets first, so the
    environment is reached only after both secret lookups returned. *)
Definition _auth_value (secrets : option dict) (environ : list (string * string))
    : result value :=
  s1 <- secrets_get secrets "NVIDIA_API_KEY" ;;
  if truthy s1 then Ok s1
  else
    s2 <- secrets_get secrets "API_KEY" ;;
    Ok (or_ (or_ (or_ s2 (getenv environ "NVIDIA_PERSONAL_API_KEY"))
                 (getenv environ "NGC_PERSONAL_API_KEY"))
            (VStr "")).

(** The four credential sources in the order [_auth_value] asks them,
    for secrets that loaded. *)
Definition credential_sources (loaded : dict) (environ : list (string * string))
    : list value :=
  [get loaded "NVIDIA_API_KEY"; get loaded "API_KEY";
   getenv environ "NVIDIA_PERSONAL_API_KEY"; getenv environ "NGC_PERSONAL_API_KEY"].

Section Headers.

Context `{Builtins}.

(** [if auth: headers["Authorization"] = f"Bearer {auth}"] on a dict
    that has no such key yet (lines 57-58, 83-84, 109-110). *)
Definition with_authorization (headers : list (string * string)) (auth : value)
    : list (string * string) :=
  if truthy auth
  then List.app headers [("Authorization", String.append "Bearer " (str_ auth))]
  else headers.

(** Lines 55-58: the headers of the negotiation call. *)
Definition upload_headers (auth : value) : list (string * string) :=
  with_authorization
    [("Content-Type", "application/json"); ("accept", "application/json")] auth.

(** Lines 78-84: the headers of the submit. *)
Definition submit_headers (auth : value) (asset_id : string) : list (string * string) :=
  with_authorization
    [("Content-Type", "application/json");
     ("NVCF-INPUT-ASSET-REFERENCES", asset_id);
     ("NVCF-FUNCTION-ASSET-IDS", asset_id)] auth.

(** Lines 108-110: the headers of each poll. *)
Definition poll_headers (auth : value) : list (string * string) :=
  with_authorization [("accept", "application/json")] auth.

End Headers.

(** A plain dict lookup on headers, as the code builds them. *)
Fixpoint header (hs : list (string * string)) (k : string) : option string :=
  match hs with
  | [] => None
  | (k', v) :: rest => if String.eqb k k' then Some v else header rest k
  end.

(** ** Label placement *)

(** Lines 204-210: the rectangle behind the label, from the box origin
    and the measured text box. *)
Definition label_background (x_min y_min : float) (tbox : float * float * float * float)
    : float * float * float * float :=
  let '(t0, t1, t2, t3) := tbox in
  let padding := 3%float in
  (x_min,
   max_ 0 (y_min - (t3 - t1) - padding * 2),
   x_min + (t2 - t0) + padding * 2,
   max_ ((t3 - t1) + padding * 2) y_min)%float.

(** ** Further readings *)

Definition is_mapping (v : value) : bool :=
  match v with VDict _ => true | _ => false end.

Definition is_list (v : value) : bool :=
  match v with VList _ => true | _ => false end.

Definition bbox_keys : list string := ["bbox"; "box"; "bounding_box"].

(** A value [a - x] rejects. *)
Definition not_a_number (v : value) : bool :=
  match v with
  | VBool _ | VInt _ | VFloat _ => false
  | _ => true
  end.

(** A detection the annotator draws nothing for: a mapping whose [bbox]
    is missing or falsy. *)
Definition without_bbox (v : value) : bool :=
  match v with
  | VDict d => negb (truthy (get d "bbox"))
  | _ => false
  end.

(** ** More example data *)

Definition corner_box : dict :=
  [("xmin", VInt 50); ("ymin", VInt 60); ("xmax", VInt 150); ("ymax", VInt 260)].

Definition null_edge_box : dict := [("x", VInt 1); ("xmax", VNone)].

Definition list_bbox_record : dict :=
  [("label", VStr "cat"); ("bbox", VList [VInt 1; VInt 2; VInt 3; VInt 4])].

(** An archive whose only image entry cannot be read. *)
Definition unreadable_image_archive : ZipFile :=
  {| namelist := ["result.json"; "a.png"];
     read := fun name =>
       if String.eqb name "a.png" then Raise (LibraryError "zipfile") else Ok one_byte |}.

(** An archive whose second image entry cannot be read. *)
Definition unreadable_later_archive : ZipFile :=
  {| namelist := ["a.png"; "b.png"];
     read := fun name =>
       if String.eqb name "b.png" then Raise (LibraryError "zipfile") else Ok one_byte |}.

(** An archive with a document no parser accepts, and the same archive
    without it. *)
Definition with_bad_document : ZipFile :=
  {| namelist := ["a.json"; "bad.json"; "b.png"]; read := fun _ => Ok one_byte |}.

Definition without_bad_document : ZipFile :=
  {| namelist := ["a.json"; "b.png"]; read := read with_bad_document |}.

(** Libraries for closed examples in which one byte opens as the first
    archive and anything longer as the second, and no text parses. *)
Definition unparsable_libraries : Libraries :=
  {| ZipFile_open := fun b =>
       match b with
       | [_] => Ok with_bad_document
       | _ => Ok without_bad_document
       end;
     json_loads := fun _ => Raise ValueError;
     uuid_canonical := fun _ => Raise ValueError |}.

(** Transports for more closed examples: a submit answered 204; a
    submit accepted and the second poll lost to a transport error; a
    negotiation answered 403. *)
Definition no_content_transport : transport :=
  {| http_post := fun _ => Ok (answer 204 one_byte);
     http_put := fun _ => Ok (answer 200 []);
     http_get := fun _ _ => Ok (answer 200 done_body) |}.

Definition lost_poll_transport : transport :=
  {| http_post := fun _ => Ok (answer 202 []);
     http_put := fun _ => Ok (answer 200 []);
     http_get := fun _ k =>
       if (k <? 1)%nat then Ok (answer 202 one_byte) else Raise (LibraryError "requests") |}.

Definition forbidden_transport : transport :=
  {| http_post := fun _ => Ok (answer 403 one_byte);
     http_put := fun _ => Ok (answer 200 []);
     http_get := fun _ _ => Ok (answer 200 done_body) |}.

(** A submit answered 500 after a negotiation answered 200. *)
Definition failing_detection_transport : transport :=
  {| http_post := fun url =>
       if String.eqb url ASSETS_URL then Ok (answer 200 []) else Ok (answer 500 one_byte);
     http_put := fun _ => Ok (answer 200 []);
     http_get := fun _ _ => Ok (answer 200 done_body) |}.

(** The first truthy value of a list, [dflt] when there is none. *)
Fixpoint first_truthy_of (l : list value) (dflt : value) : value :=
  match l with
  | [] => dflt
  | v :: rest => if truthy v then v else first_truthy_of rest dflt
  end.

Definition all_falsy (l : list value) : bool := forallb (fun v => negb (truthy v)) l.

(** Secrets whose first key is set but empty, and an environment. *)
Definition demo_secrets : dict := [("NVIDIA_API_KEY", VStr ""); ("API_KEY", VStr "nvapi-1")].

Definition demo_environ : list (string * string) :=
  [("NGC_PERSONAL_API_KEY", "ngc-2")].

(** Detections the annotator has nothing to draw for. *)
Definition boxless_detections : list value :=
  [VDict [("label", VStr "cat")]; VDict [("bbox", VList [])]; VDict [("bbox", VNone)]].

Definition drawn_detection : dict :=
  [("label", VStr "cat"); ("confidence", VFloat 0.5);
   ("bbox", VList [VFloat 80; VFloat 5; VFloat 240; VFloat 180])].

(** * Properties *)

(** ** Geometry Normalizer *)

Section GeometryFacts.

Context `{Builtins}.

Lemma bind_ok {A B : Type} (m : result A) (k : A -> result B) (b : B) :
  bind m k = Ok b -> exists a, m = Ok a /\ k a = Ok b.
Proof.
  destruct m as [a | e]; simpl; intros E; [exists a; auto | discriminate].
Qed.

Lemma scale_axis_unit_scaled (p e : float) (dim : Z) (fdim : float) :
  float_of_Z dim = Ok fdim ->
  scale_axis p e dim = Ok (unit_scaled p e fdim).
Proof.
  intros E. unfold scale_axis, unit_scaled, mul_int.
  destruct (in_unit p && in_unit e); [rewrite E; reflexivity | reflexivity].
Qed.

(** C1. For every bounding-box record and image size, each axis is scaled
    exactly when its position and its extent both lie in [0,1]: then both
    are multiplied by the image dimension, otherwise both are kept; the
    rectangle returned is [x, y, x+width, y+height], unclamped.  On an
    800x600 image the record {x:0.1, y:0.1, width:0.2, height:0.2} gives
    [80, 60, 240, 180]. *)
Theorem to_pixels_scales_axis_jointly :
  forall (box : dict) (width height : Z) (x y w h fw fh : float),
    read_box box = Ok (x, y, w, h) ->
    float_of_Z width = Ok fw ->
    float_of_Z height = Ok fh ->
    (let '(x', w') := unit_scaled x w fw in
     let '(y', h') := unit_scaled y h fh in
     _to_pixels (VDict box) width height = Ok [x'; y'; x' + w'; y' + h']%float)
    /\ _to_pixels (VDict scenario_box) 800 600 = Ok [80; 60; 240; 180]%float.
Proof.
  intros box width height x y w h fw fh Hread Hw Hh. split.
  - unfold _to_pixels. rewrite Hread. simpl.
    rewrite (scale_axis_unit_scaled x w width fw Hw).
    destruct (unit_scaled x w fw) as [x' w']. simpl.
    rewrite (scale_axis_unit_scaled y h height fh Hh).
    destruct (unit_scaled y h fh) as [y' h']. reflexivity.
  - reflexivity.
Qed.

End GeometryFacts.

Lemma to_pixels_scales_axis_jointly_witness :
  @read_box demo_builtins scenario_box = Ok (0.1, 0.1, 0.2, 0.2)%float
  /\ float_of_Z 800 = Ok 800%float
  /\ float_of_Z 600 = Ok 600%float
  /\ @_to_pixels demo_builtins (VDict scenario_box) 800 600
      = Ok [0.1 * 800; 0.1 * 600; 0.1 * 800 + 0.2 * 800; 0.1 * 600 + 0.2 * 600]%float.
Proof.
  split; [reflexivity |]. split; [reflexivity |]. split; [reflexivity |].
  exact (proj1 (@to_pixels_scales_axis_jointly demo_builtins scenario_box 800 600
                  0.1 0.1 0.2 0.2 800 600 eq_refl eq_refl eq_refl))%float.
Defined.

(** The sign of an int converted to float. *)

Lemma shr_1_nonneg (mrs : shr_record) : 0 <= shr_m mrs -> 0 <= shr_m (shr_1 mrs).
Proof.
  destruct mrs as [m r s]. destruct m as [| [p | p |] | [p | p |]]; simpl; lia.
Qed.

Lemma iter_shr_1_nonneg (p : positive) :
  forall mrs, 0 <= shr_m mrs -> 0 <= shr_m (iter_pos shr_1 p mrs).
Proof.
  induction p as [p IH | p IH |]; simpl; intros mrs Hm.
  - apply IH, IH, shr_1_nonneg, Hm.
  - apply IH, IH, Hm.
  - apply shr_1_nonneg, Hm.
Qed.

Lemma shr_fexp_nonneg (prec emax m e : Z) (l : location) :
  0 <= m -> 0 <= shr_m (fst (shr_fexp prec emax m e l)).
Proof.
  intros Hm. unfold shr_fexp, shr.
  assert (H0 : 0 <= shr_m (shr_record_of_loc m l)) by (destruct l as [| []]; exact Hm).
  destruct (fexp prec emax (Zdigits2 m + e) - e); simpl; auto using iter_shr_1_nonneg.
Qed.

Lemma round_nearest_even_nonneg (mx : Z) (lx : location) :
  0 <= mx -> 0 <= round_nearest_even mx lx.
Proof.
  intros Hm. destruct lx as [| []]; simpl; try lia. destruct (Z.even mx); lia.
Qed.

Lemma binary_round_aux_sign (prec emax : Z) (sx : bool) (mx ex : Z) (lx : location) :
  0 <= mx -> signed_as sx (binary_round_aux prec emax sx mx ex lx).
Proof.
  intros Hm. unfold binary_round_aux.
  pose proof (shr_fexp_nonneg prec emax mx ex lx Hm) as H1.
  destruct (shr_fexp prec emax mx ex lx) as [mrs' e']. simpl in H1.
  pose proof (shr_fexp_nonneg prec emax _ e' loc_Exact
                (round_nearest_even_nonneg _ (loc_of_shr_record mrs') H1)) as H2.
  destruct (shr_fexp prec emax (round_nearest_even (shr_m mrs') (loc_of_shr_record mrs'))
              e' loc_Exact) as [mrs'' e'']. simpl in H2.
  destruct (shr_m mrs'') as [| m | m]; simpl; [reflexivity | | lia].
  destruct (e'' <=? emax - prec); reflexivity.
Qed.

Lemma binary_normalize_sign (z : Z) :
  0 <= z -> signed_as false (binary_normalize 53 1024 z 0 false).
Proof.
  intros Hz. destruct z as [| p | p]; simpl; [reflexivity | | lia].
  unfold binary_round. destruct (shl_align _ _ _) as [mz ez].
  apply binary_round_aux_sign. lia.
Qed.

(** A non-negative int that fits a machine word converts to a float that
    is not negative and not NaN, so 0 times it is 0. *)
Lemma zero_times_size (n : Z) (f : float) :
  0 <= n < 2 ^ 63 -> float_of_Z n = Ok f -> (0 * f)%float = 0%float.
Proof.
  intros Hn E. unfold float_of_Z in E.
  pose proof (binary_normalize_sign n (proj1 Hn)) as Hs.
  assert (Hsf : binary_normalize 53 1024 n 0 false = Prim2SF (of_uint63 (Uint63.of_Z n))).
  { rewrite of_uint63_spec. f_equal. rewrite Uint63.of_Z_spec.
    symmetry. apply Z.mod_small. exact Hn. }
  rewrite Hsf in E, Hs. clear Hsf.
  set (g := of_uint63 (Uint63.of_Z n)) in *.
  assert (Ef : f = g).
  { destruct (Prim2SF g) eqn:Eg; try discriminate;
      rewrite <- Eg, SF2Prim_Prim2SF in E; injection E as <-; reflexivity. }
  subst f. apply Prim2SF_inj. rewrite mul_spec.
  destruct (Prim2SF g) as [s | s | | s m e]; simpl in Hs; try contradiction;
    subst s; try reflexivity.
  discriminate.
Qed.

Section ExtentFacts.

Context `{Builtins}.

Lemma numeric_float (v : value) :
  numeric v = true -> exists f, float_ v = Ok f.
Proof.
  destruct v as [ | b | z | f | s | l | d]; simpl; try discriminate; intros E.
  - exists (float_of_bool b). reflexivity.
  - destruct (float_of_Z z) as [f | e]; [exists f; reflexivity | discriminate].
  - exists f. reflexivity.
Qed.

Lemma numeric_sub (m : value) (x : float) :
  numeric m = true -> exists f, sub_ m x = Ok (VFloat f).
Proof.
  destruct m as [ | b | z | f | s | l | d]; simpl; try discriminate; intros E.
  - eexists. reflexivity.
  - destruct (float_of_Z z) as [f | e]; [eexists; reflexivity | discriminate].
  - eexists. reflexivity.
Qed.

Lemma sub_float (m : value) (x : float) (v : value) :
  sub_ m x = Ok v -> exists f, v = VFloat f.
Proof.
  destruct m as [ | b | z | f | s | l | d]; simpl; try discriminate; intros E.
  - injection E as <-. eexists. reflexivity.
  - destruct (float_of_Z z); simpl in E; [injection E as <- | discriminate].
    eexists. reflexivity.
  - injection E as <-. eexists. reflexivity.
Qed.

Lemma get_none_or_numeric (box : dict) (k : string) :
  numeric_at box k = true -> none_or_numeric (get box k).
Proof.
  unfold numeric_at, get, get_default, none_or_numeric.
  destruct (lookup k box); [right; assumption | left; reflexivity].
Qed.

Lemma get_default_numeric (box : dict) (k : string) (dflt : value) :
  numeric_at box k = true -> numeric dflt = true -> numeric (get_default box k dflt) = true.
Proof.
  unfold numeric_at, get_default. destruct (lookup k box); auto.
Qed.

Lemma or_none_or_numeric (a b : value) :
  none_or_numeric a -> none_or_numeric b -> none_or_numeric (or_ a b).
Proof.
  unfold or_. intros Ha Hb. destruct (truthy a); assumption.
Qed.

Lemma or_numeric (a b : value) :
  none_or_numeric a -> numeric b = true -> numeric (or_ a b) = true.
Proof.
  unfold or_. intros [-> | Ha] Hb; simpl; [assumption |].
  destruct (truthy a); assumption.
Qed.

Lemma truthy_numeric (a : value) :
  none_or_numeric a -> truthy a = true -> numeric a = true.
Proof.
  intros [-> | Ha]; [discriminate | auto].
Qed.

Lemma numeric_box_at (box : dict) (k : string) :
  numeric_box box = true -> In k box_keys -> numeric_at box k = true.
Proof.
  unfold numeric_box. rewrite forallb_forall. auto.
Qed.

Lemma position_numeric (box : dict) (k1 k2 : string) :
  numeric_at box k1 = true -> numeric_at box k2 = true ->
  exists f, float_ (or_ (or_ (get box k1) (get box k2)) (VInt 0)) = Ok f.
Proof.
  intros H1 H2. apply numeric_float, or_numeric; [| reflexivity].
  apply or_none_or_numeric; apply get_none_or_numeric; assumption.
Qed.

Lemma extent_numeric (box : dict) (size_key max_key : string) (pos : float) :
  numeric_at box size_key = true -> numeric_at box max_key = true ->
  exists f,
    (v <- or_else (get box size_key) (sub_ (get_default box max_key (VInt 0)) pos) ;;
     float_ v) = Ok f.
Proof.
  intros Hs Hm. unfold or_else.
  destruct (truthy (get box size_key)) eqn:T; simpl.
  - apply numeric_float, truthy_numeric; [apply get_none_or_numeric |]; assumption.
  - destruct (numeric_sub (get_default box max_key (VInt 0)) pos) as [f Ef].
    + apply get_default_numeric; [assumption | reflexivity].
    + rewrite Ef. simpl. exists f. reflexivity.
Qed.

Lemma read_box_numeric (box : dict) :
  numeric_box box = true -> exists x y w h, read_box box = Ok (x, y, w, h).
Proof.
  intros N. unfold read_box.
  assert (K : forall k, In k box_keys -> numeric_at box k = true)
    by (intros k; apply numeric_box_at; assumption).
  destruct (position_numeric box "x" "xmin") as [x Ex]; try (apply K; simpl; tauto).
  destruct (position_numeric box "y" "ymin") as [y Ey]; try (apply K; simpl; tauto).
  destruct (extent_numeric box "width" "xmax" x) as [w Ew]; try (apply K; simpl; tauto).
  destruct (extent_numeric box "height" "ymax" y) as [h Eh]; try (apply K; simpl; tauto).
  exists x, y, w, h. rewrite Ex. simpl. rewrite Ey. simpl.
  rewrite Ew. simpl. rewrite Eh. reflexivity.
Qed.

Lemma extent_reading (a : value) (b : result value) (w : float) :
  (v <- or_else a b ;; float_ v) = Ok w ->
  (truthy a = true -> float_ a = Ok w)
  /\ (truthy a = false -> exists m, b = Ok m /\ float_ m = Ok w).
Proof.
  unfold or_else. destruct (truthy a); simpl; intros E; split;
    try discriminate; intros _; [assumption |].
  destruct (bind_ok _ _ _ E) as (m & Em & Ef). exists m. auto.
Qed.

Lemma to_pixels_numeric (box : dict) (width height : Z) (fw fh : float) :
  numeric_box box = true ->
  float_of_Z width = Ok fw ->
  float_of_Z height = Ok fh ->
  exists x0 y0 x1 y1, _to_pixels (VDict box) width height = Ok [x0; y0; x1; y1].
Proof.
  intros N Hw Hh. destruct (read_box_numeric box N) as (x & y & w & h & E).
  unfold _to_pixels. rewrite E. simpl.
  rewrite (scale_axis_unit_scaled x w width fw Hw).
  destruct (unit_scaled x w fw) as [x' w']. simpl.
  rewrite (scale_axis_unit_scaled y h height fh Hh).
  destruct (unit_scaled y h fh) as [y' h']. simpl.
  do 4 eexists. reflexivity.
Qed.

(** C6, as amended.  The extent is [width] when that value is truthy
    (present and not zero), otherwise [xmax - x] when [xmax] is present,
    and 0 when [xmax] is missing and the position is missing or zero;
    likewise [height], [ymax - y] and 0.  A record whose present fields
    are booleans, floats or ints that convert to float, on an image
    whose width and height convert to float, never raises and yields
    four floats.  The record with no field at all is read as position 0
    and extent 0 and yields [0, 0, 0, 0] on every image whose width and
    height are non-negative, below 2^63 and convert to float. *)
Theorem to_pixels_extent_reading :
  (forall (box : dict) (x y w h : float),
      read_box box = Ok (x, y, w, h) ->
      (truthy (get box "width") = true -> float_ (get box "width") = Ok w)
      /\ (truthy (get box "width") = false ->
          forall m, lookup "xmax" box = Some m -> sub_ m x = Ok (VFloat w))
      /\ (truthy (get box "width") = false ->
          lookup "xmax" box = None ->
          truthy (get box "x") = false ->
          truthy (get box "xmin") = false ->
          x = 0%float /\ w = 0%float)
      /\ (truthy (get box "height") = true -> float_ (get box "height") = Ok h)
      /\ (truthy (get box "height") = false ->
          forall m, lookup "ymax" box = Some m -> sub_ m y = Ok (VFloat h))
      /\ (truthy (get box "height") = false ->
          lookup "ymax" box = None ->
          truthy (get box "y") = false ->
          truthy (get box "ymin") = false ->
          y = 0%float /\ h = 0%float))
  /\ (forall (box : dict) (width height : Z) (fw fh : float),
        numeric_box box = true ->
        float_of_Z width = Ok fw ->
        float_of_Z height = Ok fh ->
        exists x0 y0 x1 y1, _to_pixels (VDict box) width height = Ok [x0; y0; x1; y1])
  /\ read_box [] = Ok (0, 0, 0, 0)%float
  /\ (forall (width height : Z) (fw fh : float),
        0 <= width < 2 ^ 63 ->
        0 <= height < 2 ^ 63 ->
        float_of_Z width = Ok fw ->
        float_of_Z height = Ok fh ->
        _to_pixels (VDict []) width height = Ok [0; 0; 0; 0]%float).
Proof.
  split; [| split; [| split]].
  - intros box x y w h E. unfold read_box in E.
    destruct (bind_ok _ _ _ E) as (x' & Ex & E1).
    destruct (bind_ok _ _ _ E1) as (y' & Ey & E2).
    destruct (bind_ok _ _ _ E2) as (w' & Ew & E3).
    destruct (bind_ok _ _ _ E3) as (h' & Eh & E4).
    injection E4 as -> -> -> ->.
    destruct (extent_reading _ _ _ Ew) as [Wt Wf].
    destruct (extent_reading _ _ _ Eh) as [Ht Hf].
    split; [exact Wt |]. split; [| split; [| split; [exact Ht | split]]].
    + intros T m Lm. destruct (Wf T) as (m' & Em & Fm).
      unfold get_default in Em. rewrite Lm in Em.
      destruct (sub_float _ _ _ Em) as [f ->]. simpl in Fm. congruence.
    + intros T Lm Tx Txmin. destruct (Wf T) as (m' & Em & Fm).
      unfold or_ in Ex. rewrite Tx, Txmin in Ex.
      assert (Hx : x = 0%float) by (injection Ex as <-; reflexivity).
      subst x. unfold get_default in Em. rewrite Lm in Em.
      injection Em as <-. injection Fm as <-. split; reflexivity.
    + intros T m Lm. destruct (Hf T) as (m' & Em & Fm).
      unfold get_default in Em. rewrite Lm in Em.
      destruct (sub_float _ _ _ Em) as [f ->]. simpl in Fm. congruence.
    + intros T Lm Ty Tymin. destruct (Hf T) as (m' & Em & Fm).
      unfold or_ in Ey. rewrite Ty, Tymin in Ey.
      assert (Hy : y = 0%float) by (injection Ey as <-; reflexivity).
      subst y. unfold get_default in Em. rewrite Lm in Em.
      injection Em as <-. injection Fm as <-. split; reflexivity.
  - apply to_pixels_numeric.
  - reflexivity.
  - intros width height fw fh Bw Bh Ew Eh.
    unfold _to_pixels. change (read_box []) with (Ok (0, 0, 0, 0)%float). cbn [bind].
    unfold scale_axis. change (in_unit 0 && in_unit 0) with true. cbv iota.
    unfold mul_int. rewrite Ew, Eh. cbn [bind].
    rewrite (zero_times_size width fw Bw Ew), (zero_times_size height fh Bh Eh).
    reflexivity.
Qed.

End ExtentFacts.

(** C6 as stated fails on {x: 10, width: 0, xmax: 50}: [width] is
    present, so the claim reads the extent as 0; the code passes the
    zero over and reads 50 - 10. *)
Lemma to_pixels_zero_width_passed_over :
  lookup "width" zero_width_box = Some (VInt 0)
  /\ @claimed_extent demo_builtins zero_width_box "width" "xmax" 10 = Ok 0%float
  /\ @read_box demo_builtins zero_width_box = Ok (10, 0, 40, 0)%float
  /\ (40 =? 0)%float = false
  /\ @_to_pixels demo_builtins (VDict zero_width_box) 800 600 = Ok [10; 0; 50; 0]%float.
Proof. repeat split; reflexivity. Qed.

Lemma to_pixels_extent_reading_witness :
  truthy (get zero_width_box "width") = false
  /\ sub_ (VInt 50) 10 = Ok (VFloat 40)
  /\ (exists x0 y0 x1 y1,
        @_to_pixels demo_builtins (VDict zero_width_box) 800 600 = Ok [x0; y0; x1; y1])
  /\ @_to_pixels demo_builtins (VDict []) 1920 1080 = Ok [0; 0; 0; 0]%float.
Proof.
  destruct (@to_pixels_extent_reading demo_builtins) as (Hread & Hnum & _ & Hempty).
  split; [reflexivity |]. split; [| split].
  - exact (proj1 (proj2 (Hread zero_width_box 10%float 0%float 40%float 0%float eq_refl))
             eq_refl (VInt 50) eq_refl).
  - exact (Hnum zero_width_box 800 600 800%float 600%float eq_refl eq_refl eq_refl).
  - apply (Hempty 1920 1080 1920%float 1080%float); try reflexivity; lia.
Defined.

(** ** Response Unpacker: records *)

Section ExtractionFacts.

Context `{Builtins}.

Lemma or_chain2 (d : dict) (k1 k2 : string) (dflt : value) :
  or_ (or_ (get d k1) (get d k2)) dflt = first_truthy [k1; k2] d dflt.
Proof.
  unfold or_. simpl.
  destruct (truthy (get d k1)) eqn:T1; simpl; rewrite ?T1; [reflexivity |].
  destruct (truthy (get d k2)) eqn:T2; simpl; rewrite ?T2; reflexivity.
Qed.

Lemma or_chain3 (d : dict) (k1 k2 k3 : string) (dflt : value) :
  or_ (or_ (or_ (get d k1) (get d k2)) (get d k3)) dflt = first_truthy [k1; k2; k3] d dflt.
Proof.
  unfold or_. simpl.
  destruct (truthy (get d k1)) eqn:T1; simpl; rewrite ?T1; simpl; rewrite ?T1; [reflexivity |].
  destruct (truthy (get d k2)) eqn:T2; simpl; rewrite ?T2; [reflexivity |].
  destruct (truthy (get d k3)) eqn:T3; simpl; rewrite ?T3; reflexivity.
Qed.

Lemma to_pixels_four (box : value) (width height : Z) (l : list float) :
  _to_pixels box width height = Ok l -> exists x0 y0 x1 y1, l = [x0; y0; x1; y1].
Proof.
  destruct box as [ | b | z | f | s | vs | d]; simpl; try discriminate.
  intros E.
  destruct (bind_ok _ _ _ E) as ([[[x y] w] h] & _ & E1).
  destruct (bind_ok _ _ _ E1) as ([x' w'] & _ & E2).
  destruct (bind_ok _ _ _ E2) as ([y' h'] & _ & E3).
  injection E3 as <-. do 4 eexists. reflexivity.
Qed.

(** The loop returns exactly the detections of the mapping records, one
    each and in order. *)
Lemma extract_loop_ok (items : list value) (width height : Z) (dets : list value) :
  extract_loop items width height = Ok dets <->
  Forall2 (fun item det => detection_of item width height = Ok det) (mappings items) dets.
Proof.
  revert dets. induction items as [| item rest IH]; intros dets; simpl.
  - split; intros E; [injection E as <-; constructor | inversion E; reflexivity].
  - destruct item as [ | b | z | f | s | vs | d]; try apply IH.
    split; intros E.
    + destruct (bind_ok _ _ _ E) as (det & Ed & E1).
      destruct (bind_ok _ _ _ E1) as (dets' & Er & E2).
      injection E2 as <-. constructor; [assumption | apply IH; assumption].
    + inversion E as [| d' det ds' dets' Ed Er]; subst.
      rewrite Ed. simpl. apply IH in Er. rewrite Er. reflexivity.
Qed.

Lemma detection_of_fields (item : dict) (width height : Z) (det : value) :
  detection_of item width height = Ok det ->
  exists (c x0 y0 x1 y1 : float),
    float_ (first_truthy confidence_keys item (VInt 0)) = Ok c
    /\ det = VDict [("label", VStr (str_ (first_truthy label_keys item (VStr "object"))));
                    ("confidence", VFloat c);
                    ("bbox", VList [VFloat x0; VFloat y0; VFloat x1; VFloat y1])].
Proof.
  unfold detection_of. intros E.
  destruct (bind_ok _ _ _ E) as (bbox & Eb & E1).
  destruct (bind_ok _ _ _ E1) as (c & Ec & E2).
  destruct (to_pixels_four _ _ _ _ Eb) as (x0 & y0 & x1 & y1 & ->).
  injection E2 as <-. rewrite or_chain2 in Ec. rewrite or_chain3.
  exists c, x0, y0, x1, y1. split; [assumption | reflexivity].
Qed.

Lemma detection_of_well_formed (item : dict) (width height : Z) (fw fh : float) :
  well_formed_record (VDict item) = true ->
  float_of_Z width = Ok fw ->
  float_of_Z height = Ok fh ->
  exists det, detection_of item width height = Ok det.
Proof.
  unfold well_formed_record, detection_of. intros W Hw Hh.
  apply andb_true_iff in W as [W Ns]. apply andb_true_iff in W as [Wb Nc].
  destruct (or_ (or_ (or_ (get item "bbox") (get item "box")) (get item "bounding_box"))
              (VDict [])) as [ | b | z | f | s | vs | box]; try discriminate.
  destruct (to_pixels_numeric box width height fw fh Wb Hw Hh) as (x0 & y0 & x1 & y1 & ->).
  destruct (position_numeric item "confidence" "score" Nc Ns) as [c ->].
  simpl. eexists. reflexivity.
Qed.

Lemma extract_loop_well_formed (recs : list value) (width height : Z) (fw fh : float) :
  forallb well_formed_record recs = true ->
  float_of_Z width = Ok fw ->
  float_of_Z height = Ok fh ->
  exists dets,
    extract_loop recs width height = Ok dets
    /\ Forall2 (fun r det => exists item, r = VDict item /\ detection_of item width height = Ok det)
         recs dets.
Proof.
  intros W Hw Hh. induction recs as [| r rest IH]; simpl.
  - exists []. split; [reflexivity | constructor].
  - simpl in W. apply andb_true_iff in W as [Wr Wrest].
    destruct (IH Wrest) as (dets & E & F).
    destruct r as [ | b | z | f | s | vs | item]; try discriminate.
    destruct (detection_of_well_formed item width height fw fh Wr Hw Hh) as [det Ed].
    exists (det :: dets). rewrite Ed, E. simpl. split; [reflexivity |].
    constructor; [exists item; auto | assumption].
Qed.

(** C5, as amended.  Each detection's label is [str] of the first truthy
    value among [label], [class], [text] of its record (a present but
    empty, zero or null value is passed over), the literal "object" when
    none is truthy; its confidence is [float] of the first truthy value
    among [confidence], [score], of 0 when none is truthy. *)
Theorem extract_detections_first_truthy :
  forall (data : value) (width height : Z) (dets : list value),
    _extract_detections data width height = Ok dets ->
    Forall2
      (fun item det =>
         exists (c : float) (bbox : value),
           float_ (first_truthy confidence_keys item (VInt 0)) = Ok c
           /\ det = VDict [("label", VStr (str_ (first_truthy label_keys item (VStr "object"))));
                           ("confidence", VFloat c);
                           ("bbox", bbox)])
      (mappings (items_of data)) dets.
Proof.
  intros data width height dets E. apply extract_loop_ok in E.
  induction E as [| item det items dets' Ed _ IH]; constructor; [| assumption].
  destruct (detection_of_fields item width height det Ed) as (c & x0 & y0 & x1 & y1 & Ec & ->).
  exists c. eexists. split; [assumption | reflexivity].
Qed.

(** C8. Every detection [_extract_detections] returns, one per mapping
    record of the input, holds a str under [label], a float under
    [confidence] and a list of exactly four floats under [bbox]; the
    record with no field at all still yields its detection. *)
Theorem extract_detections_fields_populated :
  forall (data : value) (width height : Z),
    (forall dets : list value,
        _extract_detections data width height = Ok dets ->
        List.length dets = List.length (mappings (items_of data))
        /\ Forall detection_shape dets)
    /\ (forall fw fh : float,
          float_of_Z width = Ok fw ->
          float_of_Z height = Ok fh ->
          exists det,
            _extract_detections (VList [VDict []]) width height = Ok [det]
            /\ detection_shape det).
Proof.
  intros data width height. split.
  - intros dets E. apply extract_loop_ok in E. split.
    + symmetry. exact (Forall2_length E).
    + induction E as [| item det items dets' Ed _ IH]; constructor; [| assumption].
      destruct (detection_of_fields item width height det Ed)
        as (c & x0 & y0 & x1 & y1 & _ & ->).
      unfold detection_shape. do 6 eexists. reflexivity.
  - intros fw fh Hw Hh.
    destruct (detection_of_well_formed [] width height fw fh eq_refl Hw Hh) as [det Ed].
    exists det. unfold _extract_detections. simpl. rewrite Ed. simpl.
    destruct (detection_of_fields [] width height det Ed)
      as (c & x0 & y0 & x1 & y1 & _ & ->).
    split; [reflexivity |]. unfold detection_shape. do 6 eexists. reflexivity.
Qed.

End ExtractionFacts.

(** C5 as stated fails on a record whose [label] is the empty string and
    whose [confidence] is 0: both keys are the first present ones, and the
    code passes them over for [class] and [score]. *)
Lemma extract_detections_not_first_present :
  first_present label_keys falsy_first_record = Some (VStr "")
  /\ first_present confidence_keys falsy_first_record = Some (VInt 0)
  /\ String.eqb "cat" "" = false
  /\ (0.5 =? 0)%float = false
  /\ @_extract_detections demo_builtins (VList [VDict falsy_first_record]) 800 600
     = Ok [VDict [("label", VStr "cat");
                  ("confidence", VFloat 0.5);
                  ("bbox", VList [VFloat 0; VFloat 0; VFloat 0; VFloat 0])]].
Proof. repeat split; reflexivity. Qed.

Lemma extract_detections_first_truthy_witness :
  @_extract_detections demo_builtins (VList [VDict falsy_first_record]) 800 600
  = Ok [VDict [("label", VStr "cat");
               ("confidence", VFloat 0.5);
               ("bbox", VList [VFloat 0; VFloat 0; VFloat 0; VFloat 0])]]
  /\ Forall2
       (fun item det =>
          exists (c : float) (bbox : value),
            @float_ demo_builtins (first_truthy confidence_keys item (VInt 0)) = Ok c
            /\ det = VDict [("label",
                             VStr (@str_ demo_builtins (first_truthy label_keys item (VStr "object"))));
                            ("confidence", VFloat c);
                            ("bbox", bbox)])
       [falsy_first_record]
       [VDict [("label", VStr "cat");
               ("confidence", VFloat 0.5);
               ("bbox", VList [VFloat 0; VFloat 0; VFloat 0; VFloat 0])]].
Proof.
  split; [reflexivity |].
  exact (@extract_detections_first_truthy demo_builtins
           (VList [VDict falsy_first_record]) 800 600 _ eq_refl).
Defined.

Lemma extract_detections_fields_populated_witness :
  @_extract_detections demo_builtins demo_document 800 600
  = Ok [VDict [("label", VStr "cat");
               ("confidence", VFloat 0.5);
               ("bbox", VList [VFloat 80; VFloat 60; VFloat 240; VFloat 180])];
        VDict [("label", VStr "dog");
               ("confidence", VFloat 0);
               ("bbox", VList [VFloat 50; VFloat 60; VFloat 150; VFloat 260])]]
  /\ Forall detection_shape
       [VDict [("label", VStr "cat");
               ("confidence", VFloat 0.5);
               ("bbox", VList [VFloat 80; VFloat 60; VFloat 240; VFloat 180])];
        VDict [("label", VStr "dog");
               ("confidence", VFloat 0);
               ("bbox", VList [VFloat 50; VFloat 60; VFloat 150; VFloat 260])]].
Proof.
  split; [reflexivity |].
  exact (proj2 (proj1 (@extract_detections_fields_populated demo_builtins
                         demo_document 800 600) _ eq_refl)).
Defined.

(** ** Response Unpacker: the archive *)

Section ArchiveFacts.

Context `{Builtins} `{Libraries}.

Variables (zf : ZipFile) (width height : Z).

Lemma parse_entries_ok (names : list string) :
  forall (dss : list (list value)) (detections : list value) (annotated : bytes),
    forallb (fun name => implb (is_image_name name) (is_ok (read zf name))) names = true ->
    Forall2 (fun name ds => entry_detections zf width height name = Ok ds) names dss ->
    parse_entries zf width height names detections annotated
    = Ok ((detections ++ List.concat dss)%list,
          if is_empty annotated then first_nonempty_image zf names else annotated).
Proof.
  induction names as [| name rest IH]; intros dss detections annotated R F.
  - inversion F; subst. simpl. rewrite app_nil_r. destruct annotated; reflexivity.
  - inversion F as [| n ds rest' dss' Ed Frest]; subst. clear F.
    simpl in R. apply andb_true_iff in R as [Rn Rrest].
    cbn [parse_entries first_nonempty_image List.concat].
    assert (Hpre :
      exists annotated',
        (if is_empty annotated && is_image_name name then read zf name else Ok annotated)
        = Ok annotated'
        /\ (if is_empty annotated' then first_nonempty_image zf rest else annotated')
           = (if is_empty annotated
              then (if is_image_name name
                    then match read zf name with
                         | Ok (b :: bs) => b :: bs
                         | _ => first_nonempty_image zf rest
                         end
                    else first_nonempty_image zf rest)
              else annotated)).
    { destruct annotated as [| a0 arest]; simpl.
      - destruct (is_image_name name); simpl in *.
        + destruct (read zf name) as [[| b bs] | e]; try discriminate;
            eexists; split; reflexivity.
        + exists []. split; reflexivity.
      - exists (a0 :: arest). split; reflexivity. }
    destruct Hpre as (annotated' & -> & <-). simpl.
    unfold entry_detections in Ed.
    destruct (is_json_name name).
    + destruct (raw <- read zf name ;; json_loads raw) as [data | e].
      * rewrite Ed. simpl. rewrite (IH dss' _ _ Rrest Frest), app_assoc. reflexivity.
      * injection Ed as <-. rewrite (IH dss' _ _ Rrest Frest). reflexivity.
    + injection Ed as <-. rewrite (IH dss' _ _ Rrest Frest). reflexivity.
Qed.

Lemma entries_without_json (names : list string) :
  existsb is_json_name names = false ->
  Forall2 (fun name ds => entry_detections zf width height name = Ok ds)
    names (map (fun _ => []) names).
Proof.
  induction names as [| name rest IH]; simpl; intros E; constructor.
  - unfold entry_detections. apply orb_false_iff in E as [-> _]. reflexivity.
  - apply IH. apply orb_false_iff in E as [_ E]. exact E.
Qed.

Lemma concat_of_empties {A B : Type} (l : list A) :
  List.concat (map (fun _ => @nil B) l) = [].
Proof. induction l; simpl; auto. Qed.

Lemma entries_all_ok (names : list string) :
  forallb (fun name => is_ok (entry_detections zf width height name)) names = true ->
  exists dss, Forall2 (fun name ds => entry_detections zf width height name = Ok ds) names dss.
Proof.
  induction names as [| name rest IH]; simpl; intros E.
  - exists []. constructor.
  - apply andb_true_iff in E as [En Erest]. destruct (IH Erest) as [dss F].
    destruct (entry_detections zf width height name) as [ds | e] eqn:Ed; [| discriminate].
    exists (ds :: dss). constructor; assumption.
Qed.

Lemma first_nonempty_image_found (pre : list string) (name : string) (post : list string)
    (b : bytes) :
  (forall m, In m pre -> is_image_name m = true -> read zf m = Ok []) ->
  is_image_name name = true ->
  read zf name = Ok b ->
  b <> [] ->
  first_nonempty_image zf (pre ++ name :: post)%list = b.
Proof.
  intros Hpre Hn Hr Hb. induction pre as [| m pre IH]; simpl.
  - rewrite Hn, Hr. destruct b; [contradiction | reflexivity].
  - destruct (is_image_name m) eqn:Em.
    + rewrite (Hpre m (or_introl eq_refl) Em). apply IH. intros; apply Hpre; simpl; auto.
    + apply IH. intros; apply Hpre; simpl; auto.
Qed.

Lemma first_nonempty_image_none (names : list string) :
  (forall m, In m names -> is_image_name m = true -> read zf m = Ok []) ->
  first_nonempty_image zf names = [].
Proof.
  intros Hall. induction names as [| m rest IH]; simpl; [reflexivity |].
  destruct (is_image_name m) eqn:Em.
  - rewrite (Hall m (or_introl eq_refl) Em). apply IH. intros; apply Hall; simpl; auto.
  - apply IH. intros; apply Hall; simpl; auto.
Qed.

End ArchiveFacts.

Section UnpackerFacts.

Context `{Builtins} `{Libraries}.

Lemma parse_zip_ok (zip_bytes : bytes) (zf : ZipFile) (width height : Z)
    (dss : list (list value)) :
  is_empty zip_bytes = false ->
  ZipFile_open zip_bytes = Ok zf ->
  images_readable zf = true ->
  Forall2 (fun name ds => entry_detections zf width height name = Ok ds) (namelist zf) dss ->
  _parse_zip zip_bytes width height
  = Ok (List.concat dss, first_nonempty_image zf (namelist zf)).
Proof.
  intros Hne Hopen Hread F. unfold _parse_zip. rewrite Hne, Hopen. simpl.
  rewrite (parse_entries_ok zf width height (namelist zf) dss [] [] Hread F). reflexivity.
Qed.

(** C4. An archive holding exactly one JSON document whose [predictions]
    key holds N well-formed records unpacks to exactly N detections, the
    i-th being the detection of the i-th record; and whatever the number
    of JSON documents, the detections returned are those of the entries
    concatenated in listing order, each document's in record order. *)
Theorem parse_zip_count_and_order :
  forall (zip_bytes : bytes) (zf : ZipFile) (width height : Z),
    is_empty zip_bytes = false ->
    ZipFile_open zip_bytes = Ok zf ->
    images_readable zf = true ->
    (forall (fw fh : float) (pre : list string) (name : string) (post : list string)
            (raw : bytes) (d : dict) (recs : list value),
        float_of_Z width = Ok fw ->
        float_of_Z height = Ok fh ->
        namelist zf = (pre ++ name :: post)%list ->
        existsb is_json_name (pre ++ post)%list = false ->
        is_json_name name = true ->
        read zf name = Ok raw ->
        json_loads raw = Ok (VDict d) ->
        get d "predictions" = VList recs ->
        forallb well_formed_record recs = true ->
        exists dets img,
          _parse_zip zip_bytes width height = Ok (dets, img)
          /\ List.length dets = List.length recs
          /\ Forall2
               (fun r det =>
                  exists item, r = VDict item /\ detection_of item width height = Ok det)
               recs dets)
    /\ (forall dss : list (list value),
          Forall2 (fun name ds => entry_detections zf width height name = Ok ds)
            (namelist zf) dss ->
          exists img, _parse_zip zip_bytes width height = Ok (List.concat dss, img)).
Proof.
  intros zip_bytes zf width height Hne Hopen Hread. split.
  - intros fw fh pre name post raw d recs Hw Hh Hnames Hnone Hjson Hraw Hdoc Hpred Hwf.
    destruct (extract_loop_well_formed recs width height fw fh Hwf Hw Hh) as (dets & E & F).
    rewrite existsb_app in Hnone. apply orb_false_iff in Hnone as [Npre Npost].
    assert (Ed : entry_detections zf width height name = Ok dets).
    { unfold entry_detections. rewrite Hjson, Hraw. simpl. rewrite Hdoc.
      unfold _extract_detections, items_of, list_keys. cbn [find_items].
      rewrite Hpred. exact E. }
    assert (Fall :
      Forall2 (fun name ds => entry_detections zf width height name = Ok ds) (namelist zf)
        (map (fun _ => []) pre ++ dets :: map (fun _ => []) post)%list).
    { rewrite Hnames. apply Forall2_app; [apply entries_without_json; assumption |].
      constructor; [assumption | apply entries_without_json; assumption]. }
    exists dets, (first_nonempty_image zf (namelist zf)). split; [| split].
    + rewrite (parse_zip_ok zip_bytes zf width height _ Hne Hopen Hread Fall).
      rewrite concat_app. cbn [List.concat]. rewrite !concat_of_empties, app_nil_r. reflexivity.
    + symmetry. exact (Forall2_length F).
    + exact F.
  - intros dss F. exists (first_nonempty_image zf (namelist zf)).
    exact (parse_zip_ok zip_bytes zf width height dss Hne Hopen Hread F).
Qed.

(** C7, as amended.  The embedded preview is the content of the first
    entry in listing order whose name ends, whatever the case, in .png,
    .jpg, .jpeg or .webp and whose content is not empty; matching entries
    after it are ignored, empty matching entries before it are passed
    over, and with no such entry the preview is empty. *)
Theorem parse_zip_preview_first_nonempty :
  forall (zip_bytes : bytes) (zf : ZipFile) (width height : Z),
    is_empty zip_bytes = false ->
    ZipFile_open zip_bytes = Ok zf ->
    images_readable zf = true ->
    forallb (fun name => is_ok (entry_detections zf width height name)) (namelist zf) = true ->
    exists dets img,
      _parse_zip zip_bytes width height = Ok (dets, img)
      /\ (forall (pre : list string) (name : string) (post : list string) (b : bytes),
            namelist zf = (pre ++ name :: post)%list ->
            (forall m, In m pre -> is_image_name m = true -> read zf m = Ok []) ->
            is_image_name name = true ->
            read zf name = Ok b ->
            b <> [] ->
            img = b)
      /\ ((forall m, In m (namelist zf) -> is_image_name m = true -> read zf m = Ok []) ->
          img = []).
Proof.
  intros zip_bytes zf width height Hne Hopen Hread Hdocs.
  destruct (entries_all_ok zf width height (namelist zf) Hdocs) as [dss F].
  exists (List.concat dss), (first_nonempty_image zf (namelist zf)). split; [| split].
  - exact (parse_zip_ok zip_bytes zf width height dss Hne Hopen Hread F).
  - intros pre name post b Hnames Hpre Hn Hr Hb. rewrite Hnames.
    apply first_nonempty_image_found; assumption.
  - apply first_nonempty_image_none.
Qed.

End UnpackerFacts.

Lemma parse_zip_count_and_order_witness :
  exists dets img,
    @_parse_zip demo_builtins (demo_libraries demo_archive demo_document) one_byte 800 600
    = Ok (dets, img)
    /\ List.length dets = 2%nat
    /\ Forall2
         (fun r det =>
            exists item, r = VDict item /\ @detection_of demo_builtins item 800 600 = Ok det)
         [cat_record; dog_record] dets.
Proof.
  exact (proj1 (@parse_zip_count_and_order demo_builtins
                  (demo_libraries demo_archive demo_document)
                  one_byte demo_archive 800 600 eq_refl eq_refl eq_refl)
           800%float 600%float ["preview.PNG"] "result.json" [] one_byte
           [("predictions", VList [cat_record; dog_record])] [cat_record; dog_record]
           eq_refl eq_refl eq_refl eq_refl eq_refl eq_refl eq_refl eq_refl eq_refl).
Defined.

(** C7 as stated fails on an archive listing an empty a.png before b.png:
    the first matching entry is a.png, whose content is empty, and the
    preview returned is the content of b.png. *)
Lemma parse_zip_preview_not_first :
  find is_image_name (namelist empty_first_archive) = Some "a.png"
  /\ claimed_preview empty_first_archive = Ok []
  /\ one_byte <> []
  /\ @_parse_zip demo_builtins (demo_libraries empty_first_archive VNone) one_byte 800 600
     = Ok ([], one_byte).
Proof. repeat split; try reflexivity. discriminate. Qed.

Lemma parse_zip_preview_first_nonempty_witness :
  exists dets,
    @_parse_zip demo_builtins (demo_libraries empty_first_archive VNone) one_byte 800 600
    = Ok (dets, one_byte).
Proof.
  destruct (@parse_zip_preview_first_nonempty demo_builtins
              (demo_libraries empty_first_archive VNone)
              one_byte empty_first_archive 800 600 eq_refl eq_refl eq_refl eq_refl)
    as (dets & img & E & Hfirst & _).
  exists dets.
  assert (Himg : img = one_byte).
  { apply (Hfirst ["a.png"] "b.png" [] one_byte eq_refl); try reflexivity.
    - intros m [<- | []] _. reflexivity.
    - discriminate. }
  subst img. exact E.
Defined.

(** ** Detection Requester *)

Section PollingFacts.

Variables (tr : transport) (poll_url : string).

(** [k] pending answers in a row cost [k] retries and [k] units of fuel. *)
Lemma poll_loop_pending (k : nat) :
  forall (fuel : nat) (s : poll_state),
    (forall j, (j < k)%nat -> pending_at tr poll_url (polls s + j)) ->
    Z.of_nat k <= retries s ->
    poll_loop (k + fuel) tr poll_url s
    = poll_loop fuel tr poll_url
        {| retries := retries s - Z.of_nat k; polls := polls s + k |}.
Proof.
  induction k as [| k IH]; intros fuel s Hpend Hbudget.
  - destruct s as [r p]. simpl. rewrite Z.sub_0_r, Nat.add_0_r. reflexivity.
  - destruct (Hpend 0%nat ltac:(lia)) as (poll & Eget & Est).
    rewrite Nat.add_0_r in Eget.
    cbn [Nat.add poll_loop].
    replace (retries s >? 0) with true by (symmetry; apply Z.gtb_lt; lia).
    unfold poll_body. rewrite Eget, Est. simpl.
    rewrite IH.
    + simpl. f_equal. f_equal; lia.
    + intros j Hj. simpl. replace (S (polls s + j)) with (polls s + S j)%nat by lia.
      apply Hpend. lia.
    + simpl. lia.
Qed.

Lemma poll_loop_more_fuel (fuel : nat) :
  forall (s : poll_state) (out : result bytes * poll_state) (fuel' : nat),
    poll_loop fuel tr poll_url s = Some out ->
    (fuel <= fuel')%nat ->
    poll_loop fuel' tr poll_url s = Some out.
Proof.
  induction fuel as [| fuel IH]; intros s out fuel' E Hle; [discriminate |].
  destruct fuel' as [| fuel']; [lia |]. simpl in *.
  destruct (retries s >? 0); [| assumption].
  destruct (poll_body tr poll_url s) as [s' | r s']; [| assumption].
  apply IH; [assumption | lia].
Qed.

(** The loop ends within its budget: with more fuel than retries it
    returns, having polled at most [retries] times. *)
Lemma poll_loop_terminates (fuel : nat) :
  forall s : poll_state,
    (Z.to_nat (retries s) < fuel)%nat ->
    exists (r : result bytes) (s' : poll_state),
      poll_loop fuel tr poll_url s = Some (r, s')
      /\ (polls s' <= polls s + Z.to_nat (retries s))%nat.
Proof.
  induction fuel as [| fuel IH]; intros s Hfuel; [lia |].
  simpl. destruct (retries s >? 0) eqn:Hpos.
  - apply Z.gtb_lt in Hpos. unfold poll_body.
    destruct (http_get tr poll_url (polls s)) as [poll | e].
    + destruct (status_code poll =? 200).
      * do 2 eexists. split; [reflexivity |]. simpl. lia.
      * destruct (status_code poll =? 202); simpl.
        -- destruct (IH {| retries := retries s - 1; polls := S (polls s) |})
             as (r & s' & E & Hp); [simpl; lia |].
           exists r, s'. split; [assumption |]. simpl in Hp. lia.
        -- do 2 eexists. split; [reflexivity |]. simpl. lia.
    + do 2 eexists. split; [reflexivity |]. simpl. lia.
  - do 2 eexists. split; [reflexivity |]. lia.
Qed.

End PollingFacts.

Section RequesterFacts.

Variables (tr : transport) (asset_id prompt_text content_type : string).

Lemma request_zip_of_run (fuel : nat) (r : result bytes) (s : poll_state) :
  request_run fuel tr asset_id prompt_text content_type = Some (r, s) ->
  (fuel <= enough_fuel)%nat ->
  _request_zip tr asset_id prompt_text content_type = r.
Proof.
  intros E Hle. unfold _request_zip.
  assert (E' : request_run enough_fuel tr asset_id prompt_text content_type = Some (r, s)).
  { unfold request_run in *. destruct (http_post tr NVAI_URL) as [response | e]; [| assumption].
    destruct (status_code response =? 200); [assumption |].
    destruct (status_code response =? 202); [| assumption].
    exact (poll_loop_more_fuel tr _ fuel _ _ enough_fuel E Hle). }
  rewrite E'. reflexivity.
Qed.

Lemma request_run_accepted (fuel : nat) (response : response) :
  http_post tr NVAI_URL = Ok response ->
  status_code response = 202 ->
  request_run fuel tr asset_id prompt_text content_type
  = poll_loop fuel tr (poll_url_of response) fresh_budget.
Proof.
  intros Epost Est. unfold request_run. rewrite Epost, Est. reflexivity.
Qed.

(** C2. A submit answered with an error status (4xx or 5xx, so neither
    200 nor 202, e.g. 500) raises at once, no poll having been issued; a
    poll answered with a status other than 200 and 202 raises nothing and
    the call returns empty bytes. *)
Theorem request_zip_hard_on_submit_soft_on_poll :
  forall submit : response,
    http_post tr NVAI_URL = Ok submit ->
    (400 <= status_code submit < 600 ->
     request_run enough_fuel tr asset_id prompt_text content_type
     = Some (Raise (HTTPError (status_code submit)), fresh_budget)
     /\ polls fresh_budget = 0%nat
     /\ _request_zip tr asset_id prompt_text content_type
        = Raise (HTTPError (status_code submit)))
    /\ (status_code submit = 202 ->
        forall (k : nat) (poll : response),
          (k < Z.to_nat MAX_RETRIES)%nat ->
          (forall j, (j < k)%nat -> pending_at tr (poll_url_of submit) j) ->
          http_get tr (poll_url_of submit) k = Ok poll ->
          status_code poll <> 200 ->
          status_code poll <> 202 ->
          _request_zip tr asset_id prompt_text content_type = Ok []).
Proof.
  intros submit Epost. split.
  - intros Herr.
    assert (E : request_run enough_fuel tr asset_id prompt_text content_type
                = Some (Raise (HTTPError (status_code submit)), fresh_budget)).
    { unfold request_run. rewrite Epost.
      destruct (Z.eqb_spec (status_code submit) 200) as [E200 | _]; [lia |].
      destruct (Z.eqb_spec (status_code submit) 202) as [E202 | _]; [lia |].
      unfold raise_for_status.
      replace (400 <=? status_code submit) with true by (symmetry; apply Z.leb_le; lia).
      replace (status_code submit <? 600) with true by (symmetry; apply Z.ltb_lt; lia).
      reflexivity. }
    split; [exact E |]. split; [reflexivity |].
    exact (request_zip_of_run enough_fuel _ _ E (le_n _)).
  - intros Est k poll Hk Hpend Eget H200 H202.
    change (Z.to_nat MAX_RETRIES) with 5%nat in Hk.
    apply (request_zip_of_run (k + 1)
             (Ok []) {| retries := MAX_RETRIES - Z.of_nat k; polls := S k |});
      [| unfold enough_fuel; change (Z.to_nat MAX_RETRIES) with 5%nat; lia].
    rewrite (request_run_accepted _ submit Epost Est).
    rewrite poll_loop_pending; [| exact Hpend | unfold fresh_budget, MAX_RETRIES; simpl; lia].
    cbn [poll_loop fresh_budget retries polls Nat.add].
    replace (MAX_RETRIES - Z.of_nat k >? 0) with true
      by (symmetry; apply Z.gtb_lt; unfold MAX_RETRIES; lia).
    unfold poll_body. cbn [polls retries]. rewrite Eget.
    destruct (Z.eqb_spec (status_code poll) 200) as [E200 | _]; [contradiction |].
    destruct (Z.eqb_spec (status_code poll) 202) as [E202 | _]; [contradiction |].
    reflexivity.
Qed.

(** C3. With the budget of 5 retries, a submit answered 202 and polls
    answered 202, 202, 200 return the body of the third poll with exactly
    2 retries consumed; a submit answered 202 and polls answered 202 for
    the whole budget return empty bytes. *)
Theorem request_zip_polls_within_budget :
  forall submit : response,
    http_post tr NVAI_URL = Ok submit ->
    status_code submit = 202 ->
    (forall p0 p1 p2 : response,
        http_get tr (poll_url_of submit) 0 = Ok p0 -> status_code p0 = 202 ->
        http_get tr (poll_url_of submit) 1 = Ok p1 -> status_code p1 = 202 ->
        http_get tr (poll_url_of submit) 2 = Ok p2 -> status_code p2 = 200 ->
        request_run enough_fuel tr asset_id prompt_text content_type
        = Some (Ok (content p2), {| retries := MAX_RETRIES - 2; polls := 3 |})
        /\ _request_zip tr asset_id prompt_text content_type = Ok (content p2))
    /\ ((forall k, (k < Z.to_nat MAX_RETRIES)%nat -> pending_at tr (poll_url_of submit) k) ->
        request_run enough_fuel tr asset_id prompt_text content_type
        = Some (Ok [], {| retries := 0; polls := Z.to_nat MAX_RETRIES |})
        /\ _request_zip tr asset_id prompt_text content_type = Ok []).
Proof.
  intros submit Epost Est. split.
  - intros p0 p1 p2 E0 S0 E1 S1 E2 S2.
    assert (E : request_run enough_fuel tr asset_id prompt_text content_type
                = Some (Ok (content p2), {| retries := MAX_RETRIES - 2; polls := 3 |})).
    { rewrite (request_run_accepted _ submit Epost Est).
      change enough_fuel with (2 + 4)%nat.
      rewrite poll_loop_pending.
      - cbn [poll_loop fresh_budget retries polls Nat.add]. unfold poll_body.
        cbn [polls retries]. rewrite E2, S2. reflexivity.
      - intros j Hj. simpl.
        destruct j as [| [| j]]; [exists p0 | exists p1 | lia]; auto.
      - simpl. unfold MAX_RETRIES. lia. }
    split; [exact E | exact (request_zip_of_run enough_fuel _ _ E (le_n _))].
  - intros Hpend.
    assert (E : request_run enough_fuel tr asset_id prompt_text content_type
                = Some (Ok [], {| retries := 0; polls := Z.to_nat MAX_RETRIES |})).
    { rewrite (request_run_accepted _ submit Epost Est).
      change enough_fuel with (5 + 1)%nat.
      rewrite poll_loop_pending; [reflexivity | exact Hpend | simpl; unfold MAX_RETRIES; lia]. }
    split; [exact E | exact (request_zip_of_run enough_fuel _ _ E (le_n _))].
Qed.

(** C10. Whatever the service answers, the polling loop runs at most
    MAX_RETRIES (5) times, one GET each, and [_request_zip] returns: the
    fuel of one unit per retry is never exhausted, and more fuel changes
    nothing. *)
Theorem request_zip_terminates :
  exists (r : result bytes) (s : poll_state),
    request_run enough_fuel tr asset_id prompt_text content_type = Some (r, s)
    /\ _request_zip tr asset_id prompt_text content_type = r
    /\ (polls s <= Z.to_nat MAX_RETRIES)%nat
    /\ (forall fuel, (enough_fuel <= fuel)%nat ->
        request_run fuel tr asset_id prompt_text content_type = Some (r, s)).
Proof.
  assert (Hrun : exists r s,
    request_run enough_fuel tr asset_id prompt_text content_type = Some (r, s)
    /\ (polls s <= Z.to_nat MAX_RETRIES)%nat
    /\ (forall fuel, (enough_fuel <= fuel)%nat ->
        request_run fuel tr asset_id prompt_text content_type = Some (r, s))).
  { unfold request_run. destruct (http_post tr NVAI_URL) as [submit | e].
    - destruct (status_code submit =? 200).
      + do 2 eexists. split; [reflexivity |]. split; [simpl; lia | reflexivity].
      + destruct (status_code submit =? 202).
        * destruct (poll_loop_terminates tr (poll_url_of submit) enough_fuel fresh_budget)
            as (r & s & E & Hp); [unfold enough_fuel; simpl; lia |].
          exists r, s. split; [exact E |]. split; [exact Hp |].
          intros fuel Hle. exact (poll_loop_more_fuel tr _ _ _ _ fuel E Hle).
        * do 2 eexists. split; [reflexivity |]. split; [simpl; lia | reflexivity].
    - do 2 eexists. split; [reflexivity |]. split; [simpl; lia | reflexivity]. }
  destruct Hrun as (r & s & E & Hp & Hmore). exists r, s.
  split; [exact E |]. split; [exact (request_zip_of_run enough_fuel r s E (le_n _)) |].
  split; assumption.
Qed.

End RequesterFacts.

Lemma request_zip_hard_on_submit_soft_on_poll_witness :
  _request_zip failing_submit_transport "asset" "find all objects" "image/png"
  = Raise (HTTPError 500)
  /\ _request_zip failing_poll_transport "asset" "find all objects" "image/png" = Ok [].
Proof.
  split.
  - apply (proj1 (request_zip_hard_on_submit_soft_on_poll failing_submit_transport
                    "asset" "find all objects" "image/png" (answer 500 one_byte) eq_refl)).
    simpl. lia.
  - apply (proj2 (request_zip_hard_on_submit_soft_on_poll failing_poll_transport
                    "asset" "find all objects" "image/png" (answer 202 []) eq_refl)
             eq_refl 1%nat (answer 503 one_byte)).
    + simpl. lia.
    + intros j Hj. exists (answer 202 one_byte).
      destruct j as [| j]; [split; reflexivity | lia].
    + reflexivity.
    + simpl. lia.
    + simpl. lia.
Defined.

Lemma request_zip_polls_within_budget_witness :
  (request_run enough_fuel third_poll_transport "asset" "find all objects" "image/png"
   = Some (Ok done_body, {| retries := 3; polls := 3 |})
   /\ _request_zip third_poll_transport "asset" "find all objects" "image/png" = Ok done_body)
  /\ (request_run enough_fuel pending_transport "asset" "find all objects" "image/png"
      = Some (Ok [], {| retries := 0; polls := 5 |})
      /\ _request_zip pending_transport "asset" "find all objects" "image/png" = Ok []).
Proof.
  split.
  - exact (proj1 (request_zip_polls_within_budget third_poll_transport
                    "asset" "find all objects" "image/png" (answer 202 []) eq_refl eq_refl)
             (answer 202 one_byte) (answer 202 one_byte) (answer 200 done_body)
             eq_refl eq_refl eq_refl eq_refl eq_refl eq_refl).
  - apply (proj2 (request_zip_polls_within_budget pending_transport
                    "asset" "find all objects" "image/png" (answer 202 []) eq_refl eq_refl)).
    intros k _. exists (answer 202 one_byte). split; reflexivity.
Defined.

(** ** Pipeline Orchestrator *)

Section OrchestratorFacts.

Context `{Builtins} `{Libraries} `{Imaging}.

(** What PIL's PNG encoder guarantees: an encoding starts with the PNG
    signature, so it is never empty. *)
Hypothesis png_not_empty :
  forall (img : image) (encoded : bytes), save img "PNG" = Ok encoded -> encoded <> [].

Lemma annotate_not_empty (image_bytes : bytes) (detections : list value) (out : bytes) :
  annotate image_bytes detections = Ok out -> out <> [].
Proof.
  unfold annotate. intros E.
  destruct (bind_ok _ _ _ E) as (img0 & _ & E1).
  destruct (bind_ok _ _ _ E1) as (img1 & _ & E2).
  destruct (bind_ok _ _ _ E2) as (img2 & _ & E3).
  exact (png_not_empty img2 out E3).
Qed.

(** C9. The result image [detect] returns is never empty: when the
    unpacked archive holds no preview (as on the path where the request
    returned empty bytes) it is the fallback annotator's PNG encoding of
    the original source bytes, which is not empty, and otherwise it is
    the non-empty preview; and [detect] does return whenever its stages
    do. *)
Theorem detect_result_not_empty :
  forall (tr : transport) (image_bytes : bytes) (prompt_text content_type : string),
    let content_type' := if String.eqb content_type "" then "image/png" else content_type in
    (forall (detections : list value) (out : bytes),
        detect tr image_bytes prompt_text content_type = Ok (detections, out) ->
        out <> []
        /\ exists (asset_id : string) (zip_bytes : bytes) (img : image) (preview : bytes),
             _request_zip tr asset_id prompt_text content_type' = Ok zip_bytes
             /\ Image_open image_bytes = Ok img
             /\ _parse_zip zip_bytes (fst (size img)) (snd (size img)) = Ok (detections, preview)
             /\ (preview = [] -> annotate image_bytes detections = Ok out)
             /\ (preview <> [] -> out = preview))
    /\ (forall (asset_id : string) (zip_bytes : bytes) (img : image)
               (detections : list value) (preview : bytes),
          _upload_asset tr image_bytes "Input Asset" content_type' = Ok asset_id ->
          _request_zip tr asset_id prompt_text content_type' = Ok zip_bytes ->
          Image_open image_bytes = Ok img ->
          _parse_zip zip_bytes (fst (size img)) (snd (size img)) = Ok (detections, preview) ->
          (preview = [] -> is_ok (annotate image_bytes detections) = true) ->
          exists out,
            detect tr image_bytes prompt_text content_type = Ok (detections, out)
            /\ out <> []).
Proof.
  intros tr image_bytes prompt_text content_type content_type'. split.
  - intros detections out E. unfold detect in E. fold content_type' in E.
    destruct (bind_ok _ _ _ E) as (asset_id & _ & E1).
    destruct (bind_ok _ _ _ E1) as (zip_bytes & Ez & E2).
    destruct (bind_ok _ _ _ E2) as (img & Ei & E3).
    destruct (size img) as [width height] eqn:Es.
    destruct (bind_ok _ _ _ E3) as ([dets preview] & Ep & E4).
    assert (Hcases : out <> []
                     /\ dets = detections
                     /\ (preview = [] -> annotate image_bytes detections = Ok out)
                     /\ (preview <> [] -> out = preview)).
    { destruct preview as [| b bs]; simpl in E4.
      - destruct (bind_ok _ _ _ E4) as (encoded & Ea & E5).
        injection E5 as -> ->. split; [exact (annotate_not_empty _ _ _ Ea) |].
        split; [reflexivity |]. split; [auto | intros N; contradiction].
      - injection E4 as -> <-. split; [discriminate |].
        split; [reflexivity |]. split; [discriminate | reflexivity]. }
    destruct Hcases as (Hne & -> & Hempty & Hfull). split; [exact Hne |].
    exists asset_id, zip_bytes, img, preview. rewrite Es. simpl. auto.
  - intros asset_id zip_bytes img detections preview Eu Ez Ei Ep Ha.
    unfold detect. fold content_type'. rewrite Eu. simpl. rewrite Ez. simpl.
    rewrite Ei. simpl. destruct (size img) as [width height]. simpl in Ep.
    rewrite Ep. simpl. destruct preview as [| b bs]; simpl.
    + destruct (annotate image_bytes detections) as [encoded | e] eqn:Ea;
        [| specialize (Ha eq_refl); discriminate].
      exists encoded. split; [reflexivity | exact (annotate_not_empty _ _ _ Ea)].
    + exists (b :: bs). split; [reflexivity | discriminate].
Qed.

End OrchestratorFacts.

Lemma detect_result_not_empty_witness :
  @detect demo_builtins (demo_libraries json_only_archive demo_answer) demo_imaging
    third_poll_transport one_byte "find all objects" ""
  = Ok ([VDict [("label", VStr "cat");
                ("confidence", VFloat 0.5);
                ("bbox", VList [VFloat 80; VFloat 60; VFloat 240; VFloat 180])]],
        [Byte.x89; Byte.x50])
  /\ [Byte.x89; Byte.x50] <> []
  /\ @detect demo_builtins (demo_libraries json_only_archive demo_answer) demo_imaging
       pending_transport one_byte "find all objects" ""
     = Ok ([], [Byte.x89; Byte.x50]).
Proof.
  split; [reflexivity |]. split; [| reflexivity].
  refine (proj1 (proj1 (@detect_result_not_empty demo_builtins
                          (demo_libraries json_only_archive demo_answer) demo_imaging
                          _ third_poll_transport one_byte "find all objects" "")
                   _ _ eq_refl)).
  intros img encoded E. injection E as <-. discriminate.
Defined.

(** * Further properties *)

(** ** Geometry Normalizer *)

Section MoreGeometryFacts.

Context `{Builtins}.

Lemma scale_axis_kept (p e : float) (dim : Z) :
  in_unit p && in_unit e = false -> scale_axis p e dim = Ok (p, e).
Proof. unfold scale_axis. intros ->. reflexivity. Qed.

(** X1. A record in pixel units passes through whatever the image size:
    when on each axis the position or the extent lies outside [0,1], the
    rectangle is [x, y, x+w, y+h] for every width and height, also for
    ones no float can hold; the corner record {xmin:50, ymin:60,
    xmax:150, ymax:260} gives [50, 60, 150, 260] on every image. *)
Theorem to_pixels_pixel_units_any_size :
  (forall (box : dict) (width height : Z) (x y w h : float),
      read_box box = Ok (x, y, w, h) ->
      in_unit x && in_unit w = false ->
      in_unit y && in_unit h = false ->
      _to_pixels (VDict box) width height = Ok [x; y; x + w; y + h]%float)
  /\ (forall width height : Z,
        _to_pixels (VDict corner_box) width height = Ok [50; 60; 150; 260]%float).
Proof.
  assert (K : forall (box : dict) (width height : Z) (x y w h : float),
             read_box box = Ok (x, y, w, h) ->
             in_unit x && in_unit w = false ->
             in_unit y && in_unit h = false ->
             _to_pixels (VDict box) width height = Ok [x; y; x + w; y + h]%float).
  { intros box width height x y w h E Hx Hy. unfold _to_pixels. rewrite E. simpl.
    rewrite (scale_axis_kept x w width Hx). simpl.
    rewrite (scale_axis_kept y h height Hy). reflexivity. }
  split; [exact K |].
  intros width height.
  exact (K corner_box width height 50%float 60%float 100%float 200%float
           eq_refl eq_refl eq_refl).
Qed.

(** X2. A far edge that is present but not a number is not defaulted:
    with no truthy [width], an [xmax] holding null, a string, a list or
    a mapping makes [_to_pixels] raise TypeError, where a missing [xmax]
    would have been read as 0. *)
Theorem to_pixels_far_edge_not_a_number :
  forall (box : dict) (width height : Z) (x y : float) (m : value),
    float_ (or_ (or_ (get box "x") (get box "xmin")) (VInt 0)) = Ok x ->
    float_ (or_ (or_ (get box "y") (get box "ymin")) (VInt 0)) = Ok y ->
    truthy (get box "width") = false ->
    lookup "xmax" box = Some m ->
    not_a_number m = true ->
    _to_pixels (VDict box) width height = Raise TypeError.
Proof.
  intros box width height x y m Ex Ey Hw Hm Hn.
  unfold _to_pixels, read_box. rewrite Ex. simpl. rewrite Ey. simpl.
  unfold or_else. rewrite Hw. unfold get_default. rewrite Hm.
  destruct m; try discriminate; reflexivity.
Qed.

End MoreGeometryFacts.

Lemma to_pixels_pixel_units_any_size_witness :
  float_of_Z (2 ^ 2000) = Raise OverflowError
  /\ @_to_pixels demo_builtins (VDict corner_box) (2 ^ 2000) 0
     = Ok [50; 60; 50 + 100; 60 + 200]%float.
Proof.
  split; [reflexivity |].
  exact (proj1 (@to_pixels_pixel_units_any_size demo_builtins)
           corner_box (2 ^ 2000) 0 50%float 60%float 100%float 200%float
           eq_refl eq_refl eq_refl).
Defined.

Lemma to_pixels_far_edge_not_a_number_witness :
  @_to_pixels demo_builtins (VDict null_edge_box) 800 600 = Raise TypeError.
Proof.
  exact (@to_pixels_far_edge_not_a_number demo_builtins null_edge_box 800 600
           1%float 0%float VNone eq_refl eq_refl eq_refl eq_refl eq_refl).
Defined.

(** ** Response Unpacker: records *)

Section MoreExtractionFacts.

Context `{Builtins}.

Lemma find_items_first (d : dict) (pre : list string) (k : string) (post : list string)
    (l : list value) :
  (forall k', In k' pre -> is_list (get d k') = false) ->
  get d k = VList l ->
  find_items (pre ++ k :: post) d = Some l.
Proof.
  intros Hpre Hk. induction pre as [| k0 pre IH]; simpl.
  - rewrite Hk. reflexivity.
  - assert (H0 := Hpre k0 (or_introl eq_refl)).
    destruct (get d k0); try discriminate; apply IH; intros; apply Hpre; simpl; auto.
Qed.

Lemma find_items_none (d : dict) (keys : list string) :
  (forall k, In k keys -> is_list (get d k) = false) ->
  find_items keys d = None.
Proof.
  intros Hall. induction keys as [| k0 keys IH]; simpl; [reflexivity |].
  assert (H0 := Hall k0 (or_introl eq_refl)).
  destruct (get d k0); try discriminate; apply IH; intros; apply Hall; simpl; auto.
Qed.

(** X3. The records of a mapping document are the list under the first
    of predictions, detections, objects, results, data that holds a
    list: an earlier key holding anything else is passed over, and a
    later key is not looked at, whatever it holds. *)
Theorem items_of_first_list_valued_key :
  forall (d : dict) (pre : list string) (k : string) (post : list string) (l : list value),
    list_keys = (pre ++ k :: post)%list ->
    (forall k', In k' pre -> is_list (get d k') = false) ->
    get d k = VList l ->
    items_of (VDict d) = l
    /\ forall width height,
         _extract_detections (VDict d) width height = extract_loop l width height.
Proof.
  intros d pre k post l Hkeys Hpre Hk.
  assert (E : items_of (VDict d) = l).
  { unfold items_of. rewrite Hkeys, (find_items_first d pre k post l Hpre Hk). reflexivity. }
  split; [exact E |]. intros width height. unfold _extract_detections. rewrite E. reflexivity.
Qed.

(** X4. A mapping document with no list under any of the five keys is
    itself the single record: it yields exactly one detection, its own,
    or raises what building that detection raises. *)
Theorem extract_detections_single_record :
  forall (d : dict) (width height : Z),
    (forall k, In k list_keys -> is_list (get d k) = false) ->
    _extract_detections (VDict d) width height
    = (det <- detection_of d width height ;; Ok [det]).
Proof.
  intros d width height Hall. unfold _extract_detections, items_of.
  rewrite (find_items_none d list_keys Hall). simpl.
  destruct (detection_of d width height); reflexivity.
Qed.

Lemma extract_loop_filter (items : list value) (width height : Z) :
  extract_loop (filter is_mapping items) width height = extract_loop items width height.
Proof.
  induction items as [| item rest IH]; simpl; [reflexivity |].
  destruct item; simpl; try exact IH. rewrite IH. reflexivity.
Qed.

(** X5. Items that are not mappings are skipped silently: a sequence
    document yields what the sequence of its mapping items yields, and
    a document that is neither a mapping nor a sequence yields no
    detection. *)
Theorem extract_detections_skips_non_mappings :
  forall (width height : Z),
    (forall items : list value,
        _extract_detections (VList items) width height
        = _extract_detections (VList (filter is_mapping items)) width height)
    /\ _extract_detections VNone width height = Ok []
    /\ (forall b, _extract_detections (VBool b) width height = Ok [])
    /\ (forall z, _extract_detections (VInt z) width height = Ok [])
    /\ (forall f, _extract_detections (VFloat f) width height = Ok [])
    /\ (forall s, _extract_detections (VStr s) width height = Ok []).
Proof.
  intros width height. split.
  - intros items. unfold _extract_detections. simpl.
    symmetry. apply extract_loop_filter.
  - repeat split.
Qed.

Lemma mappings_app (l1 l2 : list value) :
  mappings (l1 ++ l2) = (mappings l1 ++ mappings l2)%list.
Proof.
  induction l1 as [| v l1 IH]; simpl; [reflexivity |].
  destruct v; simpl; rewrite ?IH; reflexivity.
Qed.

(** X6. Extraction distributes over concatenation: the detections of
    two sequences laid end to end are the detections of the first
    followed by those of the second. *)
Theorem extract_detections_app :
  forall (l1 l2 : list value) (width height : Z) (d1 d2 : list value),
    _extract_detections (VList l1) width height = Ok d1 ->
    _extract_detections (VList l2) width height = Ok d2 ->
    _extract_detections (VList (l1 ++ l2)) width height = Ok (d1 ++ d2)%list.
Proof.
  unfold _extract_detections. simpl. intros l1 l2 width height d1 d2 E1 E2.
  apply extract_loop_ok. rewrite mappings_app.
  apply Forall2_app; apply extract_loop_ok; assumption.
Qed.

Lemma extract_loop_raises (pre : list value) (item : dict) (post : list value)
    (width height : Z) (dets : list value) (e : exn) :
  extract_loop pre width height = Ok dets ->
  detection_of item width height = Raise e ->
  extract_loop (pre ++ VDict item :: post) width height = Raise e.
Proof.
  revert dets. induction pre as [| v pre IH]; intros dets Epre Eitem; simpl.
  - rewrite Eitem. reflexivity.
  - destruct v; simpl in Epre; try (apply (IH dets); assumption).
    destruct (bind_ok _ _ _ Epre) as (det & -> & E1).
    destruct (bind_ok _ _ _ E1) as (dets' & Er & _). simpl.
    rewrite (IH dets' Er Eitem). reflexivity.
Qed.

(** X7. One record that cannot be turned into a detection aborts the
    extraction: the exception it raises is the result, and the
    detections of the records before it are lost. *)
Theorem extract_detections_one_bad_record :
  forall (pre : list value) (item : dict) (post : list value) (width height : Z)
         (dets : list value) (e : exn),
    _extract_detections (VList pre) width height = Ok dets ->
    detection_of item width height = Raise e ->
    _extract_detections (VList (pre ++ VDict item :: post)) width height = Raise e.
Proof.
  unfold _extract_detections. simpl. intros. eapply extract_loop_raises; eassumption.
Qed.

(** X8. A bounding box given as anything but a mapping, such as the
    list [x0, y0, x1, y1], is not understood: the first truthy value
    among [bbox], [box], [bounding_box] is handed to [_to_pixels], and
    when it is not a mapping the record raises AttributeError. *)
Theorem detection_of_bbox_not_a_mapping :
  forall (item : dict) (width height : Z),
    is_mapping (first_truthy bbox_keys item (VDict [])) = false ->
    detection_of item width height = Raise AttributeError
    /\ _extract_detections (VList [VDict item]) width height = Raise AttributeError.
Proof.
  intros item width height Hb.
  assert (E : detection_of item width height = Raise AttributeError).
  { unfold detection_of. rewrite or_chain3. fold bbox_keys.
    destruct (first_truthy bbox_keys item (VDict [])); try discriminate; reflexivity. }
  split; [exact E |]. unfold _extract_detections. simpl. rewrite E. reflexivity.
Qed.

End MoreExtractionFacts.

Lemma items_of_first_list_valued_key_witness :
  items_of (VDict [("predictions", VStr "none"); ("objects", VList [cat_record]);
                   ("data", VList [dog_record; dog_record])])
  = [cat_record].
Proof.
  refine (proj1 (@items_of_first_list_valued_key demo_builtins
                   [("predictions", VStr "none"); ("objects", VList [cat_record]);
                    ("data", VList [dog_record; dog_record])]
                   ["predictions"; "detections"] "objects" ["results"; "data"]
                   [cat_record] eq_refl _ eq_refl)).
  intros k' [<- | [<- | []]]; reflexivity.
Defined.

Lemma extract_detections_single_record_witness :
  @_extract_detections demo_builtins cat_record 800 600
  = (det <- @detection_of demo_builtins
              [("label", VStr "cat"); ("confidence", VFloat 0.5); ("bbox", VDict scenario_box)]
              800 600 ;;
     Ok [det]).
Proof.
  refine (@extract_detections_single_record demo_builtins _ 800 600 _).
  intros k [<- | [<- | [<- | [<- | [<- | []]]]]]; reflexivity.
Defined.

Lemma extract_detections_app_witness :
  exists d1 d2,
    @_extract_detections demo_builtins (VList [cat_record]) 800 600 = Ok d1
    /\ @_extract_detections demo_builtins (VList [VStr "noise"; dog_record]) 800 600 = Ok d2
    /\ @_extract_detections demo_builtins
         (VList [cat_record; VStr "noise"; dog_record]) 800 600
       = Ok (d1 ++ d2)%list.
Proof.
  do 2 eexists. split; [reflexivity |]. split; [reflexivity |].
  exact (@extract_detections_app demo_builtins [cat_record] [VStr "noise"; dog_record]
           800 600 _ _ eq_refl eq_refl).
Defined.

Lemma extract_detections_one_bad_record_witness :
  @_extract_detections demo_builtins
    (VList [cat_record; VDict [("confidence", VStr "high")]; dog_record]) 800 600
  = Raise ValueError.
Proof.
  exact (@extract_detections_one_bad_record demo_builtins
           [cat_record] [("confidence", VStr "high")] [dog_record] 800 600
           _ ValueError eq_refl eq_refl).
Defined.

Lemma detection_of_bbox_not_a_mapping_witness :
  @_extract_detections demo_builtins (VList [VDict list_bbox_record]) 800 600
  = Raise AttributeError.
Proof.
  exact (proj2 (@detection_of_bbox_not_a_mapping demo_builtins list_bbox_record 800 600
                  eq_refl)).
Defined.

(** ** Response Unpacker: the archive *)

Lemma substring_whole (s : string) : substring 0 (String.length s) s = s.
Proof. induction s as [| c s IH]; simpl; [reflexivity | rewrite IH; reflexivity]. Qed.

Lemma substring_cut (k : nat) :
  forall (s : string) (m : nat),
    (k + m = String.length s)%nat ->
    s = String.append (substring 0 k s) (substring k m s).
Proof.
  induction k as [| k IH]; intros s m E.
  - simpl in E. subst m. rewrite substring_whole. destruct s; reflexivity.
  - destruct s as [| c s]; [discriminate |]. simpl in E. injection E as E.
    simpl. rewrite <- (IH s m E). reflexivity.
Qed.

Lemma endswith_suffix (s suffix : string) :
  endswith s suffix = true -> exists pre, s = String.append pre suffix.
Proof.
  unfold endswith. intros E. apply andb_true_iff in E as [Hle Heq].
  apply Nat.leb_le in Hle. apply String.eqb_eq in Heq.
  exists (substring 0 (String.length s - String.length suffix) s).
  rewrite <- Heq at 2. apply substring_cut. lia.
Qed.

Lemma append_assoc (a b c : string) :
  String.append (String.append a b) c = String.append a (String.append b c).
Proof. induction a as [| x a IH]; simpl; [reflexivity | rewrite IH; reflexivity]. Qed.

Lemma append_last (a b : string) (c d : ascii) :
  String.append a (String c EmptyString) = String.append b (String d EmptyString) -> c = d.
Proof.
  revert b. induction a as [| x a IH]; intros b E; destruct b as [| y b]; simpl in E.
  - injection E as E. exact E.
  - injection E as _ E. destruct b; discriminate.
  - injection E as _ E. destruct a; discriminate.
  - injection E as _ E. exact (IH b E).
Qed.

Lemma endswith_last (s a b : string) (c d : ascii) :
  endswith s (String.append a (String c EmptyString)) = true ->
  endswith s (String.append b (String d EmptyString)) = true ->
  c = d.
Proof.
  intros Ea Eb.
  destruct (endswith_suffix _ _ Ea) as [pa Ha].
  destruct (endswith_suffix _ _ Eb) as [pb Hb].
  rewrite Ha, <- !append_assoc in Hb. exact (append_last _ _ _ _ Hb).
Qed.

Lemma json_suffix_excludes_image (name : string) :
  is_json_name name = true -> is_image_name name = false.
Proof.
  intros Hj. unfold is_json_name in Hj. unfold is_image_name, endswith_any, image_suffixes.
  simpl.
  assert (K : forall (b : string) (d : ascii),
             d <> "n"%char ->
             endswith (lower name) (String.append b (String d EmptyString)) = false).
  { intros b d Hd.
    destruct (endswith (lower name) (String.append b (String d EmptyString))) eqn:E;
      [| reflexivity].
    exfalso. apply Hd. symmetry.
    exact (endswith_last (lower name) ".jso" b "n" d Hj E). }
  assert (K1 := K ".pn" "g"%char ltac:(discriminate)).
  assert (K2 := K ".jp" "g"%char ltac:(discriminate)).
  assert (K3 := K ".jpe" "g"%char ltac:(discriminate)).
  assert (K4 := K ".web" "p"%char ltac:(discriminate)).
  cbn [String.append] in K1, K2, K3, K4.
  rewrite K1, K2, K3, K4. reflexivity.
Qed.

(** X9. No entry is both a preview and a document: a name that ends in
    .json, whatever the case, ends in none of .png, .jpg, .jpeg, .webp,
    so the two tests of the loop never both hold for one entry. *)
Theorem json_name_not_image_name :
  forall name : string, is_json_name name && is_image_name name = false.
Proof.
  intros name. destruct (is_json_name name) eqn:Hj; [| reflexivity].
  exact (json_suffix_excludes_image name Hj).
Qed.

Section MoreArchiveFacts.

Context `{Builtins} `{Libraries}.

Variables (zf : ZipFile) (width height : Z).

Lemma parse_entries_app (l1 l2 : list string) :
  forall (detections : list value) (annotated : bytes),
    parse_entries zf width height (l1 ++ l2) detections annotated
    = (r <- parse_entries zf width height l1 detections annotated ;;
       parse_entries zf width height l2 (fst r) (snd r)).
Proof.
  induction l1 as [| name rest IH]; intros detections annotated; [reflexivity |].
  cbn [parse_entries List.app].
  destruct (if is_empty annotated && is_image_name name then read zf name else Ok annotated)
    as [annotated' | e]; simpl; [| reflexivity].
  destruct (is_json_name name); [| apply IH].
  destruct (raw <- read zf name ;; json_loads raw) as [data | e]; [| apply IH].
  destruct (_extract_detections data width height) as [found | e]; simpl;
    [apply IH | reflexivity].
Qed.

Lemma parse_entries_nothing (names : list string) :
  forall (detections : list value) (annotated : bytes),
    existsb is_json_name names = false ->
    existsb is_image_name names = false ->
    parse_entries zf width height names detections annotated = Ok (detections, annotated).
Proof.
  induction names as [| name rest IH]; intros detections annotated Hj Hi; [reflexivity |].
  simpl in Hj, Hi. apply orb_false_iff in Hj as [Hj Hjr]. apply orb_false_iff in Hi as [Hi Hir].
  simpl. rewrite Hi, Hj, andb_false_r. simpl. apply IH; assumption.
Qed.

Lemma parse_entries_with_preview (names : list string) :
  forall (dss : list (list value)) (detections : list value) (annotated : bytes),
    annotated <> [] ->
    Forall2 (fun name ds => entry_detections zf width height name = Ok ds) names dss ->
    parse_entries zf width height names detections annotated
    = Ok ((detections ++ List.concat dss)%list, annotated).
Proof.
  induction names as [| name rest IH]; intros dss detections annotated Hne F.
  - inversion F; subst. simpl. rewrite app_nil_r. reflexivity.
  - inversion F as [| n ds rest' dss' Ed Frest]; subst. clear F.
    destruct annotated as [| b bs]; [contradiction |].
    cbn [parse_entries is_empty andb bind List.concat].
    unfold entry_detections in Ed.
    destruct (is_json_name name).
    + destruct (raw <- read zf name ;; json_loads raw) as [data | e].
      * rewrite Ed. simpl. rewrite (IH dss' _ _ Hne Frest), app_assoc. reflexivity.
      * injection Ed as <-. rewrite (IH dss' _ _ Hne Frest). reflexivity.
    + injection Ed as <-. rewrite (IH dss' _ _ Hne Frest). reflexivity.
Qed.

Lemma parse_entries_skip_unparsable (name : string) (rest : list string) (e : exn) :
  forall (detections : list value) (annotated : bytes),
    is_json_name name = true ->
    (raw <- read zf name ;; json_loads raw) = Raise e ->
    parse_entries zf width height (name :: rest) detections annotated
    = parse_entries zf width height rest detections annotated.
Proof.
  intros detections annotated Hj Hr. cbn [parse_entries].
  rewrite (json_suffix_excludes_image name Hj), andb_false_r, Hj, Hr. reflexivity.
Qed.

End MoreArchiveFacts.

Section MoreUnpackerFacts.

Context `{Builtins} `{Libraries}.

(** X10. An archive that lists no JSON document and no raster image
    unpacks to no detection and an empty preview, and none of its
    entries is read. *)
Theorem parse_zip_nothing_to_unpack :
  forall (zip_bytes : bytes) (zf : ZipFile) (width height : Z),
    is_empty zip_bytes = false ->
    ZipFile_open zip_bytes = Ok zf ->
    existsb is_json_name (namelist zf) = false ->
    existsb is_image_name (namelist zf) = false ->
    _parse_zip zip_bytes width height = Ok ([], [])
    /\ forall read' : string -> result bytes,
         parse_entries {| namelist := namelist zf; read := read' |} width height
           (namelist zf) [] []
         = Ok ([], []).
Proof.
  intros zip_bytes zf width height Hne Hopen Hj Hi. split.
  - unfold _parse_zip. rewrite Hne, Hopen. simpl.
    apply parse_entries_nothing; assumption.
  - intros read'. apply parse_entries_nothing; assumption.
Qed.

(** X11. A JSON document that cannot be read or parsed adds nothing and
    stops nothing: the archive unpacks exactly as the archive without
    that entry does. *)
Theorem parse_zip_skips_unparsable_document :
  forall (zip_bytes zip_bytes' : bytes) (zf : ZipFile) (width height : Z)
         (pre : list string) (name : string) (post : list string) (e : exn),
    is_empty zip_bytes = false ->
    is_empty zip_bytes' = false ->
    ZipFile_open zip_bytes = Ok zf ->
    namelist zf = (pre ++ name :: post)%list ->
    ZipFile_open zip_bytes' = Ok {| namelist := (pre ++ post)%list; read := read zf |} ->
    is_json_name name = true ->
    (raw <- read zf name ;; json_loads raw) = Raise e ->
    _parse_zip zip_bytes width height = _parse_zip zip_bytes' width height.
Proof.
  intros zip_bytes zip_bytes' zf width height pre name post e Hne Hne' Hopen Hnames Hopen'
    Hj Hr.
  unfold _parse_zip. rewrite Hne, Hne', Hopen, Hopen'. simpl. rewrite Hnames.
  assert (Same : forall names detections annotated,
             parse_entries {| namelist := (pre ++ post)%list; read := read zf |}
               width height names detections annotated
             = parse_entries zf width height names detections annotated).
  { induction names as [| n rest IH]; intros detections annotated; [reflexivity |].
    cbn [parse_entries read]. 
    destruct (if is_empty annotated && is_image_name n then read zf n else Ok annotated)
      as [annotated' | e0]; simpl; [| reflexivity].
    destruct (is_json_name n); [| apply IH].
    destruct (raw <- read zf n ;; json_loads raw) as [data | e0]; [| apply IH].
    destruct (_extract_detections data width height); simpl; [apply IH | reflexivity]. }
  rewrite Same, !parse_entries_app.
  destruct (parse_entries zf width height pre [] []) as [[detections annotated] | e0];
    simpl; [| reflexivity].
  exact (parse_entries_skip_unparsable zf width height name post e _ _ Hj Hr).
Qed.

(** X12. Only parsing is guarded: when a document parses and one of its
    records cannot be turned into a detection, the exception leaves
    [_parse_zip], and what the entries before it gave is lost. *)
Theorem parse_zip_bad_record_raises :
  forall (zip_bytes : bytes) (zf : ZipFile) (width height : Z)
         (pre : list string) (name : string) (post : list string)
         (dss : list (list value)) (raw : bytes) (data : value) (e : exn),
    is_empty zip_bytes = false ->
    ZipFile_open zip_bytes = Ok zf ->
    namelist zf = (pre ++ name :: post)%list ->
    forallb (fun n => implb (is_image_name n) (is_ok (read zf n))) pre = true ->
    Forall2 (fun n ds => entry_detections zf width height n = Ok ds) pre dss ->
    is_json_name name = true ->
    read zf name = Ok raw ->
    json_loads raw = Ok data ->
    _extract_detections data width height = Raise e ->
    _parse_zip zip_bytes width height = Raise e.
Proof.
  intros zip_bytes zf width height pre name post dss raw data e Hne Hopen Hnames Hread F
    Hj Hraw Hdata Hext.
  unfold _parse_zip. rewrite Hne, Hopen. simpl. rewrite Hnames, parse_entries_app.
  rewrite (parse_entries_ok zf width height pre dss [] [] Hread F). simpl.
  rewrite (json_suffix_excludes_image name Hj), andb_false_r, Hj, Hraw. simpl.
  rewrite Hdata, Hext. reflexivity.
Qed.

(** X13. Reading the preview is not guarded either: while no preview
    has been found, an image entry that cannot be read makes
    [_parse_zip] raise what the read raised. *)
Theorem parse_zip_unreadable_image_raises :
  forall (zip_bytes : bytes) (zf : ZipFile) (width height : Z)
         (pre : list string) (name : string) (post : list string)
         (dss : list (list value)) (e : exn),
    is_empty zip_bytes = false ->
    ZipFile_open zip_bytes = Ok zf ->
    namelist zf = (pre ++ name :: post)%list ->
    forallb (fun n => implb (is_image_name n) (is_ok (read zf n))) pre = true ->
    Forall2 (fun n ds => entry_detections zf width height n = Ok ds) pre dss ->
    first_nonempty_image zf pre = [] ->
    is_image_name name = true ->
    read zf name = Raise e ->
    _parse_zip zip_bytes width height = Raise e.
Proof.
  intros zip_bytes zf width height pre name post dss e Hne Hopen Hnames Hread F Hnone Hi Hr.
  unfold _parse_zip. rewrite Hne, Hopen. simpl. rewrite Hnames, parse_entries_app.
  rewrite (parse_entries_ok zf width height pre dss [] [] Hread F). simpl.
  rewrite Hnone. simpl. rewrite Hi, Hr. reflexivity.
Qed.

(** X14. Once a non-empty preview has been found no later image entry
    is read: with the documents in order, the archive unpacks to that
    preview even when the image entries after it cannot be read. *)
Theorem parse_zip_later_images_not_read :
  forall (zip_bytes : bytes) (zf : ZipFile) (width height : Z)
         (pre post : list string) (dss : list (list value)),
    is_empty zip_bytes = false ->
    ZipFile_open zip_bytes = Ok zf ->
    namelist zf = (pre ++ post)%list ->
    forallb (fun n => implb (is_image_name n) (is_ok (read zf n))) pre = true ->
    first_nonempty_image zf pre <> [] ->
    Forall2 (fun n ds => entry_detections zf width height n = Ok ds) (namelist zf) dss ->
    _parse_zip zip_bytes width height = Ok (List.concat dss, first_nonempty_image zf pre).
Proof.
  intros zip_bytes zf width height pre post dss Hne Hopen Hnames Hread Hfound F.
  unfold _parse_zip. rewrite Hne, Hopen. simpl. rewrite Hnames in *.
  apply Forall2_app_inv_l in F as (dss1 & dss2 & F1 & F2 & ->).
  rewrite parse_entries_app.
  rewrite (parse_entries_ok zf width height pre dss1 [] [] Hread F1). simpl.
  rewrite (parse_entries_with_preview zf width height post dss2 _ _ Hfound F2).
  rewrite concat_app. reflexivity.
Qed.

End MoreUnpackerFacts.

Lemma parse_zip_nothing_to_unpack_witness :
  @_parse_zip demo_builtins
    (demo_libraries {| namelist := ["readme.txt"; "labels.csv"];
                       read := fun _ => Raise (LibraryError "zipfile") |} VNone)
    one_byte 800 600
  = Ok ([], []).
Proof.
  exact (proj1 (@parse_zip_nothing_to_unpack demo_builtins
                  (demo_libraries {| namelist := ["readme.txt"; "labels.csv"];
                                     read := fun _ => Raise (LibraryError "zipfile") |} VNone)
                  one_byte _ 800 600 eq_refl eq_refl eq_refl eq_refl)).
Defined.

Lemma parse_zip_skips_unparsable_document_witness :
  @_parse_zip demo_builtins unparsable_libraries one_byte 800 600
  = @_parse_zip demo_builtins unparsable_libraries done_body 800 600.
Proof.
  exact (@parse_zip_skips_unparsable_document demo_builtins unparsable_libraries
           one_byte done_body with_bad_document 800 600
           ["a.json"] "bad.json" ["b.png"] ValueError
           eq_refl eq_refl eq_refl eq_refl eq_refl eq_refl eq_refl).
Defined.

Lemma parse_zip_bad_record_raises_witness :
  @_parse_zip demo_builtins (demo_libraries demo_archive (VList [VDict list_bbox_record]))
    one_byte 800 600
  = Raise AttributeError.
Proof.
  refine (@parse_zip_bad_record_raises demo_builtins
            (demo_libraries demo_archive (VList [VDict list_bbox_record]))
            one_byte demo_archive 800 600 ["preview.PNG"] "result.json" [] [[]]
            one_byte (VList [VDict list_bbox_record]) AttributeError
            eq_refl eq_refl eq_refl eq_refl _ eq_refl eq_refl eq_refl eq_refl).
  repeat constructor.
Defined.

Lemma parse_zip_unreadable_image_raises_witness :
  @_parse_zip demo_builtins (demo_libraries unreadable_image_archive VNone) one_byte 800 600
  = Raise (LibraryError "zipfile").
Proof.
  refine (@parse_zip_unreadable_image_raises demo_builtins
            (demo_libraries unreadable_image_archive VNone)
            one_byte unreadable_image_archive 800 600 ["result.json"] "a.png" [] [[]]
            (LibraryError "zipfile")
            eq_refl eq_refl eq_refl eq_refl _ eq_refl eq_refl eq_refl).
  repeat constructor.
Defined.

Lemma parse_zip_later_images_not_read_witness :
  read unreadable_later_archive "b.png" = Raise (LibraryError "zipfile")
  /\ @_parse_zip demo_builtins (demo_libraries unreadable_later_archive VNone)
       one_byte 800 600
     = Ok ([], one_byte).
Proof.
  split; [reflexivity |].
  refine (@parse_zip_later_images_not_read demo_builtins
            (demo_libraries unreadable_later_archive VNone)
            one_byte unreadable_later_archive 800 600 ["a.png"] ["b.png"] [[]; []]
            eq_refl eq_refl eq_refl eq_refl _ _).
  - discriminate.
  - repeat constructor.
Defined.

(** ** Detection Requester *)

Section MorePollingFacts.

Variables (tr : transport) (poll_url : string).

Lemma poll_loop_answered (fuel : nat) :
  forall (s s' : poll_state) (r : result bytes),
    poll_loop fuel tr poll_url s = Some (r, s') ->
    (forall k, (polls s <= k < polls s + Z.to_nat (retries s))%nat ->
               is_ok (http_get tr poll_url k) = true) ->
    exists b, r = Ok b.
Proof.
  induction fuel as [| fuel IH]; intros s s' r E Hans; [discriminate |].
  simpl in E. destruct (retries s >? 0) eqn:Hpos.
  - apply Z.gtb_lt in Hpos. unfold poll_body in E.
    assert (H0 := Hans (polls s) ltac:(lia)).
    destruct (http_get tr poll_url (polls s)) as [poll | e]; [| discriminate].
    destruct (status_code poll =? 200).
    + injection E as <- _. eexists. reflexivity.
    + destruct (status_code poll =? 202); simpl in E.
      * apply (IH _ _ _ E). simpl. intros k Hk. apply Hans. lia.
      * injection E as <- _. eexists. reflexivity.
  - injection E as <- _. eexists. reflexivity.
Qed.

Lemma poll_loop_completed (fuel : nat) :
  forall (s s' : poll_state) (b : bytes),
    poll_loop fuel tr poll_url s = Some (Ok b, s') ->
    b <> [] ->
    exists (k : nat) (poll : response),
      (polls s <= k < polls s + Z.to_nat (retries s))%nat
      /\ http_get tr poll_url k = Ok poll
      /\ status_code poll = 200
      /\ content poll = b
      /\ (forall j, (polls s <= j < k)%nat -> pending_at tr poll_url j).
Proof.
  induction fuel as [| fuel IH]; intros s s' b E Hb; [discriminate |].
  simpl in E. destruct (retries s >? 0) eqn:Hpos.
  - apply Z.gtb_lt in Hpos. unfold poll_body in E.
    destruct (http_get tr poll_url (polls s)) as [poll | e] eqn:Eget; [| discriminate].
    destruct (Z.eqb_spec (status_code poll) 200) as [E200 | N200].
    + injection E as <- _. exists (polls s), poll.
      repeat split; try assumption; lia.
    + destruct (Z.eqb_spec (status_code poll) 202) as [E202 | N202]; simpl in E.
      * destruct (IH _ _ _ E Hb) as (k & final & Hk & Eg & Es & Ec & Hpend).
        simpl in Hk, Hpend. exists k, final.
        repeat split; try assumption; try lia.
        intros j Hj. destruct (Nat.eq_dec j (polls s)) as [-> | Hne].
        -- exists poll. auto.
        -- apply Hpend. lia.
      * injection E as <- _. contradiction.
  - injection E as <- _. contradiction.
Qed.

Lemma poll_loop_lost (k : nat) (e : exn) :
  forall (fuel : nat) (s : poll_state),
    (forall j, (j < k)%nat -> pending_at tr poll_url (polls s + j)) ->
    Z.of_nat k < retries s ->
    http_get tr poll_url (polls s + k) = Raise e ->
    exists s', poll_loop (k + S fuel) tr poll_url s = Some (Raise e, s').
Proof.
  intros fuel s Hpend Hbudget Eget.
  rewrite poll_loop_pending; [| exact Hpend | lia].
  cbn [poll_loop retries polls].
  replace (retries s - Z.of_nat k >? 0) with true by (symmetry; apply Z.gtb_lt; lia).
  unfold poll_body. cbn [polls retries]. rewrite Eget. eexists. reflexivity.
Qed.

End MorePollingFacts.

Section MoreRequesterFacts.

Variables (tr : transport) (asset_id prompt_text content_type : string).

Lemma request_zip_run :
  forall submit : response,
    http_post tr NVAI_URL = Ok submit ->
    status_code submit = 202 ->
    exists s,
      poll_loop enough_fuel tr (poll_url_of submit) fresh_budget
      = Some (_request_zip tr asset_id prompt_text content_type, s).
Proof.
  intros submit Epost Est.
  destruct (poll_loop_terminates tr (poll_url_of submit) enough_fuel fresh_budget)
    as (r & s & E & _); [unfold enough_fuel; simpl; lia |].
  exists s. rewrite E. repeat f_equal. symmetry.
  apply (request_zip_of_run tr asset_id prompt_text content_type enough_fuel r s);
    [| apply le_n].
  rewrite (request_run_accepted tr asset_id prompt_text content_type _ submit Epost Est).
  exact E.
Qed.

(** X15. Once the submit has been accepted with 202, no status a poll
    can carry makes the call raise: if the transport answers every poll
    of the budget, [_request_zip] returns bytes. *)
Theorem request_zip_accepted_never_raises :
  forall submit : response,
    http_post tr NVAI_URL = Ok submit ->
    status_code submit = 202 ->
    (forall k, (k < Z.to_nat MAX_RETRIES)%nat ->
               is_ok (http_get tr (poll_url_of submit) k) = true) ->
    exists b, _request_zip tr asset_id prompt_text content_type = Ok b.
Proof.
  intros submit Epost Est Hans.
  destruct (request_zip_run submit Epost Est) as [s E].
  apply (poll_loop_answered tr _ _ _ _ _ E). intros k Hk. apply Hans.
  change (Z.to_nat (retries fresh_budget)) with 5%nat in Hk.
  change (polls fresh_budget) with 0%nat in Hk.
  change (Z.to_nat MAX_RETRIES) with 5%nat. lia.
Qed.

(** X16. After an accepted submit, bytes that are not empty can only be
    the body of a poll answered 200: it is one of the first MAX_RETRIES
    polls, and every poll before it was answered 202. *)
Theorem request_zip_body_comes_from_completed_poll :
  forall (submit : response) (b : bytes),
    http_post tr NVAI_URL = Ok submit ->
    status_code submit = 202 ->
    _request_zip tr asset_id prompt_text content_type = Ok b ->
    b <> [] ->
    exists (k : nat) (poll : response),
      (k < Z.to_nat MAX_RETRIES)%nat
      /\ http_get tr (poll_url_of submit) k = Ok poll
      /\ status_code poll = 200
      /\ content poll = b
      /\ (forall j, (j < k)%nat -> pending_at tr (poll_url_of submit) j).
Proof.
  intros submit b Epost Est Eb Hb.
  destruct (request_zip_run submit Epost Est) as [s E]. rewrite Eb in E.
  destruct (poll_loop_completed tr _ _ _ _ _ E Hb) as (k & poll & Hk & Eg & Es & Ec & Hp).
  change (Z.to_nat (retries fresh_budget)) with 5%nat in Hk.
  change (polls fresh_budget) with 0%nat in Hk, Hp.
  change (Z.to_nat MAX_RETRIES) with 5%nat.
  exists k, poll. repeat split; try assumption; try lia.
  intros j Hj. apply Hp. lia.
Qed.

(** X17. Only 202 starts the polling and only 4xx and 5xx raise: every
    other submit status, 200 but also 204 or 304, returns the body of
    the submit response at once, with no poll issued. *)
Theorem request_zip_other_status_returns_body :
  forall (submit : response) (fuel : nat),
    http_post tr NVAI_URL = Ok submit ->
    status_code submit <> 202 ->
    ~ (400 <= status_code submit < 600) ->
    request_run fuel tr asset_id prompt_text content_type
    = Some (Ok (content submit), fresh_budget)
    /\ _request_zip tr asset_id prompt_text content_type = Ok (content submit).
Proof.
  intros submit fuel Epost N202 Nerr.
  assert (E : forall fuel', request_run fuel' tr asset_id prompt_text content_type
                            = Some (Ok (content submit), fresh_budget)).
  { intros fuel'. unfold request_run. rewrite Epost.
    destruct (status_code submit =? 200); [reflexivity |].
    destruct (Z.eqb_spec (status_code submit) 202) as [E202 | _]; [contradiction |].
    unfold raise_for_status.
    destruct (Z.leb_spec 400 (status_code submit)); simpl; [| reflexivity].
    destruct (Z.ltb_spec (status_code submit) 600); simpl; [lia | reflexivity]. }
  split; [apply E |]. unfold _request_zip. rewrite E. reflexivity.
Qed.

(** X18. The soft failure covers statuses only: when the transport
    itself fails on a poll (a timeout, a lost connection) after any
    number of 202 answers within the budget, [_request_zip] raises what
    the transport raised. *)
Theorem request_zip_lost_poll_raises :
  forall (submit : response) (k : nat) (e : exn),
    http_post tr NVAI_URL = Ok submit ->
    status_code submit = 202 ->
    (k < Z.to_nat MAX_RETRIES)%nat ->
    (forall j, (j < k)%nat -> pending_at tr (poll_url_of submit) j) ->
    http_get tr (poll_url_of submit) k = Raise e ->
    _request_zip tr asset_id prompt_text content_type = Raise e.
Proof.
  intros submit k e Epost Est Hk Hpend Eget.
  change (Z.to_nat MAX_RETRIES) with 5%nat in Hk.
  destruct (poll_loop_lost tr (poll_url_of submit) k e 0 fresh_budget) as [s E].
  - exact Hpend.
  - simpl. unfold MAX_RETRIES. lia.
  - exact Eget.
  - apply (request_zip_of_run tr asset_id prompt_text content_type (k + 1) (Raise e) s).
    + rewrite (request_run_accepted tr asset_id prompt_text content_type _ submit Epost Est).
      exact E.
    + unfold enough_fuel. change (Z.to_nat MAX_RETRIES) with 5%nat. lia.
Qed.

End MoreRequesterFacts.

Lemma request_zip_accepted_never_raises_witness :
  exists b, _request_zip failing_poll_transport "asset" "find all objects" "image/png" = Ok b.
Proof.
  apply (request_zip_accepted_never_raises failing_poll_transport
           "asset" "find all objects" "image/png" (answer 202 []) eq_refl eq_refl).
  intros k _. simpl. destruct (k <? 1)%nat; reflexivity.
Defined.

Lemma request_zip_body_comes_from_completed_poll_witness :
  exists (k : nat) (poll : response),
    (k < Z.to_nat MAX_RETRIES)%nat
    /\ http_get third_poll_transport (poll_url_of (answer 202 [])) k = Ok poll
    /\ status_code poll = 200
    /\ content poll = done_body
    /\ (forall j, (j < k)%nat ->
                  pending_at third_poll_transport (poll_url_of (answer 202 [])) j).
Proof.
  apply (request_zip_body_comes_from_completed_poll third_poll_transport
           "asset" "find all objects" "image/png" (answer 202 []) done_body
           eq_refl eq_refl eq_refl).
  discriminate.
Defined.

Lemma request_zip_other_status_returns_body_witness :
  _request_zip no_content_transport "asset" "find all objects" "image/png" = Ok one_byte.
Proof.
  apply (proj2 (request_zip_other_status_returns_body no_content_transport
                  "asset" "find all objects" "image/png" (answer 204 one_byte) 0
                  eq_refl ltac:(discriminate) ltac:(simpl; lia))).
Defined.

Lemma request_zip_lost_poll_raises_witness :
  _request_zip lost_poll_transport "asset" "find all objects" "image/png"
  = Raise (LibraryError "requests").
Proof.
  apply (request_zip_lost_poll_raises lost_poll_transport
           "asset" "find all objects" "image/png" (answer 202 []) 1
           (LibraryError "requests") eq_refl eq_refl).
  - simpl. lia.
  - intros j Hj. exists (answer 202 one_byte).
    destruct j as [| j]; [split; reflexivity | lia].
  - reflexivity.
Defined.

(** ** Asset Uploader *)

Section MoreUploaderFacts.

Context `{Libraries}.

Variables (tr : transport) (data : bytes) (description content_type : string).

(** X19. The uploader returns an identifier exactly when the whole
    exchange went through: the negotiation is answered without an
    error status by a mapping that holds a string [uploadUrl] and an
    [assetId] the UUID parser accepts, and the PUT to that address is
    answered without an error status; the identifier is the canonical
    form of [assetId]. *)
Theorem upload_asset_succeeds_iff :
  forall asset_id : string,
    _upload_asset tr data description content_type = Ok asset_id <->
    exists (negotiation : response) (meta : dict) (url : string) (asset : value)
           (put : response),
      http_post tr ASSETS_URL = Ok negotiation
      /\ raise_for_status negotiation = Ok tt
      /\ json_loads (content negotiation) = Ok (VDict meta)
      /\ lookup "uploadUrl" meta = Some (VStr url)
      /\ lookup "assetId" meta = Some asset
      /\ uuid_canonical asset = Ok asset_id
      /\ http_put tr url = Ok put
      /\ raise_for_status put = Ok tt.
Proof.
  intros asset_id. unfold _upload_asset. split.
  - intros E.
    destruct (bind_ok _ _ _ E) as (negotiation & Epost & E1).
    destruct (bind_ok _ _ _ E1) as ([] & Est & E2).
    destruct (bind_ok _ _ _ E2) as (meta & Emeta & E3).
    destruct (bind_ok _ _ _ E3) as (upload_url & Eurl & E4).
    destruct (bind_ok _ _ _ E4) as (asset & Easset & E5).
    destruct (bind_ok _ _ _ E5) as (canonical & Eid & E6).
    destruct (bind_ok _ _ _ E6) as (put & Eput & E7).
    destruct (bind_ok _ _ _ E7) as ([] & Eput_st & E8).
    injection E8 as ->.
    destruct meta as [ | | | | | | d]; try discriminate. simpl in Eurl, Easset.
    destruct (lookup "uploadUrl" d) as [u |] eqn:Lu; [| discriminate].
    injection Eurl as ->.
    destruct (lookup "assetId" d) as [a |] eqn:La; [| discriminate].
    injection Easset as ->.
    destruct upload_url as [ | | | | url | | ]; try discriminate.
    exists negotiation, d, url, asset, put. repeat split; assumption.
  - intros (negotiation & meta & url & asset & put & Epost & Est & Emeta & Lu & La & Eid
            & Eput & Eput_st).
    rewrite Epost. simpl. rewrite Est. simpl. rewrite Emeta. simpl.
    rewrite Lu. simpl. rewrite La. simpl. rewrite Eid. simpl.
    rewrite Eput. simpl. rewrite Eput_st. reflexivity.
Qed.

(** X20. How an upload fails once the negotiation has been answered: an
    error status raises HTTPError before the answer is looked at; an
    answer that is not a mapping raises TypeError; a mapping without
    [uploadUrl], or with it and without [assetId], raises KeyError; and
    an [assetId] the UUID parser rejects raises what the parser raised,
    whatever the PUT would have answered. *)
Theorem upload_asset_failures :
  forall negotiation : response,
    http_post tr ASSETS_URL = Ok negotiation ->
    (400 <= status_code negotiation < 600 ->
     _upload_asset tr data description content_type
     = Raise (HTTPError (status_code negotiation)))
    /\ (forall meta : value,
          raise_for_status negotiation = Ok tt ->
          json_loads (content negotiation) = Ok meta ->
          (is_mapping meta = false ->
           _upload_asset tr data description content_type = Raise TypeError)
          /\ (forall d, meta = VDict d -> lookup "uploadUrl" d = None ->
                        _upload_asset tr data description content_type = Raise KeyError)
          /\ (forall d u, meta = VDict d -> lookup "uploadUrl" d = Some u ->
                          lookup "assetId" d = None ->
                          _upload_asset tr data description content_type = Raise KeyError)
          /\ (forall d u a e, meta = VDict d -> lookup "uploadUrl" d = Some u ->
                              lookup "assetId" d = Some a ->
                              uuid_canonical a = Raise e ->
                              _upload_asset tr data description content_type = Raise e)).
Proof.
  intros negotiation Epost. unfold _upload_asset. rewrite Epost. simpl. split.
  - intros Herr. unfold raise_for_status.
    replace (400 <=? status_code negotiation) with true by (symmetry; apply Z.leb_le; lia).
    replace (status_code negotiation <? 600) with true by (symmetry; apply Z.ltb_lt; lia).
    reflexivity.
  - intros meta Est Emeta. rewrite Est. simpl. rewrite Emeta. simpl.
    split; [| split; [| split]].
    + intros Hm. destruct meta; try discriminate; reflexivity.
    + intros d -> Lu. simpl. rewrite Lu. reflexivity.
    + intros d u -> Lu La. simpl. rewrite Lu. simpl. rewrite La. reflexivity.
    + intros d u a e -> Lu La Eid. simpl. rewrite Lu. simpl. rewrite La. simpl.
      rewrite Eid. reflexivity.
Qed.

End MoreUploaderFacts.

Lemma upload_asset_succeeds_iff_witness :
  @_upload_asset (demo_libraries json_only_archive demo_answer)
    pending_transport one_byte "Input Asset" "image/png"
  = Ok "3f2b8c1e-0000-4000-8000-000000000001".
Proof.
  apply (proj2 (@upload_asset_succeeds_iff (demo_libraries json_only_archive demo_answer)
                  pending_transport one_byte "Input Asset" "image/png"
                  "3f2b8c1e-0000-4000-8000-000000000001")).
  exists (answer 202 []),
         [("uploadUrl", VStr "https://upload.example/a");
          ("assetId", VStr "3f2b8c1e-0000-4000-8000-000000000001");
          ("predictions", VList [cat_record])],
         "https://upload.example/a",
         (VStr "3f2b8c1e-0000-4000-8000-000000000001"),
         (answer 200 []).
  repeat split.
Defined.

Lemma upload_asset_failures_witness :
  @_upload_asset (demo_libraries json_only_archive demo_answer)
    forbidden_transport one_byte "Input Asset" "image/png"
  = Raise (HTTPError 403)
  /\ @_upload_asset (demo_libraries json_only_archive (VList []))
       pending_transport one_byte "Input Asset" "image/png"
     = Raise TypeError.
Proof.
  split.
  - apply (proj1 (@upload_asset_failures (demo_libraries json_only_archive demo_answer)
                    forbidden_transport one_byte "Input Asset" "image/png"
                    (answer 403 one_byte) eq_refl)).
    simpl. lia.
  - exact (proj1 (proj2 (@upload_asset_failures (demo_libraries json_only_archive (VList []))
                           pending_transport one_byte "Input Asset" "image/png"
                           (answer 202 []) eq_refl)
                    (VList []) eq_refl eq_refl) eq_refl).
Defined.

(** ** Credentials *)

Lemma first_truthy_of_found (pre : list value) (v : value) (post : list value)
    (dflt : value) :
  all_falsy pre = true ->
  truthy v = true ->
  first_truthy_of (pre ++ v :: post) dflt = v.
Proof.
  intros Hpre Hv. induction pre as [| p pre IH]; simpl.
  - rewrite Hv. reflexivity.
  - simpl in Hpre. apply andb_true_iff in Hpre as [Hp Hrest].
    apply negb_true_iff in Hp. rewrite Hp. exact (IH Hrest).
Qed.

Lemma first_truthy_of_none (l : list value) (dflt : value) :
  all_falsy l = true -> first_truthy_of l dflt = dflt.
Proof.
  induction l as [| p l IH]; simpl; intros Hl; [reflexivity |].
  apply andb_true_iff in Hl as [Hp Hrest]. apply negb_true_iff in Hp.
  rewrite Hp. exact (IH Hrest).
Qed.

Lemma first_truthy_of_falsy (l : list value) (dflt : value) :
  truthy (first_truthy_of l dflt) = false -> first_truthy_of l dflt = dflt.
Proof.
  induction l as [| p l IH]; simpl; [reflexivity |].
  destruct (truthy p) eqn:Tp; [intros E; congruence | exact IH].
Qed.

Lemma auth_value_first_truthy (loaded : dict) (environ : list (string * string)) :
  _auth_value (Some loaded) environ
  = Ok (first_truthy_of (credential_sources loaded environ) (VStr "")).
Proof.
  unfold _auth_value, secrets_get, credential_sources, or_. cbn [bind first_truthy_of].
  destruct (truthy (get loaded "NVIDIA_API_KEY")) eqn:T1; [reflexivity |]. cbn [bind].
  destruct (truthy (get loaded "API_KEY")) eqn:T2;
    repeat (cbv iota; rewrite ?T2); [reflexivity |].
  destruct (truthy (getenv environ "NVIDIA_PERSONAL_API_KEY")) eqn:T3;
    repeat (cbv iota; rewrite ?T3); [reflexivity |].
  destruct (truthy (getenv environ "NGC_PERSONAL_API_KEY")) eqn:T4; reflexivity.
Qed.

(** X21. Without a secrets file that loads, [_auth_value] raises on the
    first lookup and never reaches the environment, whatever variables
    are set.  With secrets that load, the credential is the first truthy
    value in the order secret NVIDIA_API_KEY, secret API_KEY, variable
    NVIDIA_PERSONAL_API_KEY, variable NGC_PERSONAL_API_KEY: a source
    that is missing or empty is passed over, later sources are not
    consulted, and with no truthy source the credential is the empty
    string, the only falsy value the call can return. *)
Theorem auth_value_precedence :
  forall environ : list (string * string),
    _auth_value None environ = Raise (LibraryError "streamlit")
    /\ forall loaded : dict,
         (forall (pre : list value) (v : value) (post : list value),
             credential_sources loaded environ = (pre ++ v :: post)%list ->
             all_falsy pre = true ->
             truthy v = true ->
             _auth_value (Some loaded) environ = Ok v)
         /\ (all_falsy (credential_sources loaded environ) = true ->
             _auth_value (Some loaded) environ = Ok (VStr ""))
         /\ (forall v : value,
               _auth_value (Some loaded) environ = Ok v ->
               truthy v = false ->
               v = VStr "").
Proof.
  intros environ. split; [reflexivity |].
  intros loaded. rewrite auth_value_first_truthy. split; [| split].
  - intros pre v post -> Hpre Hv. f_equal. apply first_truthy_of_found; assumption.
  - intros Hnone. f_equal. apply first_truthy_of_none. exact Hnone.
  - intros v E T.
    assert (Ev : first_truthy_of (credential_sources loaded environ) (VStr "") = v)
      by congruence.
    rewrite <- Ev in *. apply first_truthy_of_falsy. exact T.
Qed.

Section HeaderFacts.

Context `{Builtins}.

(** X22. The bearer token goes on all three calls or on none: when a
    credential source is truthy the negotiation, the submit and every
    poll carry [Authorization: Bearer <credential>], and when none is
    they carry no Authorization header at all. *)
Theorem authorization_on_every_call_or_none :
  forall (secrets : option dict) (environ : list (string * string)) (asset_id : string)
         (auth : value),
    _auth_value secrets environ = Ok auth ->
    (truthy auth = true ->
     header (upload_headers auth) "Authorization" = Some (String.append "Bearer " (str_ auth))
     /\ header (submit_headers auth asset_id) "Authorization"
        = Some (String.append "Bearer " (str_ auth))
     /\ header (poll_headers auth) "Authorization"
        = Some (String.append "Bearer " (str_ auth)))
    /\ (forall loaded : dict,
          secrets = Some loaded ->
          all_falsy (credential_sources loaded environ) = true ->
          header (upload_headers auth) "Authorization" = None
          /\ header (submit_headers auth asset_id) "Authorization" = None
          /\ header (poll_headers auth) "Authorization" = None)
    /\ (truthy auth = false ->
        header (upload_headers auth) "Authorization" = None
        /\ header (submit_headers auth asset_id) "Authorization" = None
        /\ header (poll_headers auth) "Authorization" = None).
Proof.
  intros secrets environ asset_id auth E.
  assert (Hfalsy : truthy auth = false ->
            header (upload_headers auth) "Authorization" = None
            /\ header (submit_headers auth asset_id) "Authorization" = None
            /\ header (poll_headers auth) "Authorization" = None).
  { intros T. unfold upload_headers, submit_headers, poll_headers, with_authorization.
    rewrite T. repeat split. }
  split; [| split; [| exact Hfalsy]].
  - intros T. unfold upload_headers, submit_headers, poll_headers, with_authorization.
    rewrite T. repeat split.
  - intros loaded -> Hnone. apply Hfalsy.
    rewrite auth_value_first_truthy, (first_truthy_of_none _ _ Hnone) in E.
    injection E as <-. reflexivity.
Qed.

End HeaderFacts.

Lemma auth_value_precedence_witness :
  _auth_value None demo_environ = Raise (LibraryError "streamlit")
  /\ _auth_value (Some demo_secrets) demo_environ = Ok (VStr "nvapi-1").
Proof.
  split.
  - exact (proj1 (auth_value_precedence demo_environ)).
  - exact (proj1 (proj2 (auth_value_precedence demo_environ) demo_secrets)
             [VStr ""] (VStr "nvapi-1") [VNone; VStr "ngc-2"] eq_refl eq_refl eq_refl).
Defined.

Lemma authorization_on_every_call_or_none_witness :
  header (@poll_headers demo_builtins (VStr "nvapi-1")) "Authorization"
  = Some "Bearer nvapi-1"
  /\ header (@submit_headers demo_builtins (VStr "") "asset") "Authorization" = None.
Proof.
  split.
  - exact (proj2 (proj2 (proj1 (@authorization_on_every_call_or_none demo_builtins
                                  (Some demo_secrets) demo_environ "asset"
                                  (VStr "nvapi-1") eq_refl) eq_refl))).
  - exact (proj1 (proj2 (proj1 (proj2 (@authorization_on_every_call_or_none demo_builtins
                                         (Some []) [] "asset" (VStr "") eq_refl))
                           [] eq_refl eq_refl))).
Defined.

(** ** Fallback Annotator *)

Lemma ltb_leb (x y : float) : (x <? y)%float = true -> (x <=? y)%float = true.
Proof.
  rewrite ltb_spec, leb_spec. unfold SFltb, SFleb.
  destruct (SFcompare (Prim2SF x) (Prim2SF y)) as [[ | | ] |]; auto.
Qed.

Section MoreAnnotatorFacts.

Context `{Builtins} `{Imaging}.

Lemma annotate_loop_boxless (detections : list value) :
  forall (img : image) (idx : nat),
    forallb without_bbox detections = true ->
    annotate_loop img idx detections = Ok img.
Proof.
  induction detections as [| item rest IH]; intros img idx Hall; [reflexivity |].
  simpl in Hall. apply andb_true_iff in Hall as [Hitem Hrest].
  cbn [annotate_loop]. destruct item; try discriminate.
  unfold annotate_item. simpl in Hitem. rewrite Hitem. simpl. apply IH. exact Hrest.
Qed.

(** X23. Detections without a box are skipped without error: when every
    detection is a mapping whose [bbox] is missing, null or empty, the
    annotator draws nothing and returns what it returns for no
    detection at all, the re-encoded source image. *)
Theorem annotate_skips_boxless_detections :
  forall (image_bytes : bytes) (detections : list value),
    forallb without_bbox detections = true ->
    annotate image_bytes detections = annotate image_bytes [].
Proof.
  intros image_bytes detections Hall. unfold annotate.
  destruct (Image_open image_bytes) as [img | e]; simpl; [| reflexivity].
  destruct (convert img "RGB") as [rgb | e]; simpl; [| reflexivity].
  rewrite (annotate_loop_boxless detections rgb 0 Hall). reflexivity.
Qed.

(** X24. The colour of a detection depends on its position modulo 5
    only: the item at position idx + 5 is drawn exactly as it would be
    at position idx. *)
Theorem annotate_item_colour_cycles :
  forall (img : image) (idx : nat) (item : value),
    annotate_item img (idx + 5) item = annotate_item img idx item.
Proof.
  intros img idx item. unfold annotate_item.
  change (List.length colors) with 5%nat.
  replace ((idx + 5) mod 5)%nat with (idx mod 5)%nat; [reflexivity |].
  symmetry. exact (Nat.Div0.mod_add idx 1 5).
Qed.

(** X25. Where the label goes: for a detection with a box, the annotator
    outlines the box with stroke 3 in the palette colour, fills the
    rectangle [label_background] computes in the same colour and writes
    the text 3 units inside it; that rectangle starts at the box's left
    edge and its top edge is never negative (nor NaN), so the label
    never starts above the image. *)
Theorem annotate_item_label_placement :
  forall (img : image) (idx : nat) (d : dict) (x_min y_min x_max y_max : float)
         (text : string),
    truthy (get d "bbox") = true ->
    unpack4 (get d "bbox") = Ok (x_min, y_min, x_max, y_max) ->
    label_text d = Ok text ->
    let '(b0, b1, b2, b3) := label_background x_min y_min (textbbox text) in
    let color := nth (idx mod 5) colors "" in
    annotate_item img idx (VDict d)
    = (outlined <- draw_rectangle img [x_min; y_min; x_max; y_max] None (Some color) 3 ;;
       filled <- draw_rectangle outlined [b0; b1; b2; b3] (Some color) None 1 ;;
       draw_text filled (b0 + 3, b1 + 3)%float text "white")
    /\ b0 = x_min
    /\ (0 <=? b1)%float = true.
Proof.
  intros img idx d x_min y_min x_max y_max text Hb Hu Ht.
  unfold label_background. destruct (textbbox text) as [[[t0 t1] t2] t3] eqn:Etb.
  split; [| split].
  - unfold annotate_item. rewrite Hb, Hu. cbn [negb bind].
    change (List.length colors) with 5%nat.
    set (color := nth (idx mod 5) colors "").
    destruct (draw_rectangle img [x_min; y_min; x_max; y_max] None (Some color) 3)
      as [outlined | e]; cbn [bind]; [| reflexivity].
    rewrite Ht. cbn [bind]. rewrite Etb. reflexivity.
  - reflexivity.
  - unfold max_. destruct (0 <? y_min - (t3 - t1) - 3 * 2)%float eqn:L;
      [exact (ltb_leb _ _ L) | reflexivity].
Qed.

End MoreAnnotatorFacts.

Lemma annotate_skips_boxless_detections_witness :
  @annotate demo_builtins demo_imaging one_byte boxless_detections
  = @annotate demo_builtins demo_imaging one_byte [].
Proof.
  exact (@annotate_skips_boxless_detections demo_builtins demo_imaging
           one_byte boxless_detections eq_refl).
Defined.

Lemma annotate_item_label_placement_witness :
  label_background 80 5 (@textbbox demo_imaging "cat 0.00") = (80, 0, 126, 17)%float
  /\ @annotate_item demo_builtins demo_imaging one_byte 7 (VDict drawn_detection)
     = Ok one_byte.
Proof.
  split; [reflexivity |].
  exact (proj1 (@annotate_item_label_placement demo_builtins demo_imaging
                  one_byte 7 drawn_detection 80%float 5%float 240%float 180%float
                  "cat 0.00" eq_refl eq_refl eq_refl)).
Defined.

(** ** Pipeline Orchestrator *)

Section MoreOrchestratorFacts.

Context `{Builtins} `{Libraries} `{Imaging}.

Variables (tr : transport) (image_bytes : bytes) (prompt_text content_type : string).

Lemma request_zip_exhausted (asset_id ctype : string) (submit : response) :
  http_post tr NVAI_URL = Ok submit ->
  status_code submit = 202 ->
  (forall k, (k < Z.to_nat MAX_RETRIES)%nat -> pending_at tr (poll_url_of submit) k) ->
  _request_zip tr asset_id prompt_text ctype = Ok [].
Proof.
  intros Epost Est Hpend.
  apply (request_zip_of_run tr asset_id prompt_text ctype enough_fuel (Ok [])
           {| retries := 0; polls := 5 |}); [| apply le_n].
  rewrite (request_run_accepted tr asset_id prompt_text ctype _ submit Epost Est).
  change enough_fuel with (5 + 1)%nat.
  rewrite poll_loop_pending; [reflexivity | exact Hpend | simpl; unfold MAX_RETRIES; lia].
Qed.

Lemma request_zip_submit_error (asset_id ctype : string) (submit : response) :
  http_post tr NVAI_URL = Ok submit ->
  400 <= status_code submit < 600 ->
  _request_zip tr asset_id prompt_text ctype = Raise (HTTPError (status_code submit)).
Proof.
  intros Epost Herr. unfold _request_zip, request_run. rewrite Epost.
  destruct (Z.eqb_spec (status_code submit) 200) as [E200 | _]; [lia |].
  destruct (Z.eqb_spec (status_code submit) 202) as [E202 | _]; [lia |].
  unfold raise_for_status.
  replace (400 <=? status_code submit) with true by (symmetry; apply Z.leb_le; lia).
  replace (status_code submit <? 600) with true by (symmetry; apply Z.ltb_lt; lia).
  reflexivity.
Qed.

(** X26. A detection that never completes is no error for the caller:
    when the upload succeeds, the submit is accepted and every poll of
    the budget answers 202, [detect] returns no detection and the
    fallback rendering of the untouched source image, and raises only
    if the source image cannot be decoded or encoded. *)
Theorem detect_soft_failure :
  forall (asset_id : string) (submit : response),
    let content_type' := if String.eqb content_type "" then "image/png" else content_type in
    _upload_asset tr image_bytes "Input Asset" content_type' = Ok asset_id ->
    http_post tr NVAI_URL = Ok submit ->
    status_code submit = 202 ->
    (forall k, (k < Z.to_nat MAX_RETRIES)%nat -> pending_at tr (poll_url_of submit) k) ->
    detect tr image_bytes prompt_text content_type
    = (_ <- Image_open image_bytes ;;
       out <- annotate image_bytes [] ;;
       Ok ([], out)).
Proof.
  intros asset_id submit content_type' Eup Epost Est Hpend.
  unfold detect. fold content_type'. rewrite Eup. simpl.
  rewrite (request_zip_exhausted asset_id content_type' submit Epost Est Hpend). simpl.
  destruct (Image_open image_bytes) as [img | e]; simpl; [| reflexivity].
  destruct (size img) as [width height]. reflexivity.
Qed.

(** X27. Failures of the first two stages reach the caller unchanged and
    before the image is looked at: what the upload raises is what
    [detect] raises, and after a successful upload a submit answered
    4xx or 5xx makes [detect] raise HTTPError with that status, whether
    or not the source image can be decoded. *)
Theorem detect_hard_failure :
  let content_type' := if String.eqb content_type "" then "image/png" else content_type in
  (forall e : exn,
      _upload_asset tr image_bytes "Input Asset" content_type' = Raise e ->
      detect tr image_bytes prompt_text content_type = Raise e)
  /\ (forall (asset_id : string) (submit : response),
        _upload_asset tr image_bytes "Input Asset" content_type' = Ok asset_id ->
        http_post tr NVAI_URL = Ok submit ->
        400 <= status_code submit < 600 ->
        detect tr image_bytes prompt_text content_type
        = Raise (HTTPError (status_code submit))).
Proof.
  intros content_type'. split.
  - intros e Eup. unfold detect. fold content_type'. rewrite Eup. reflexivity.
  - intros asset_id submit Eup Epost Herr. unfold detect. fold content_type'.
    rewrite Eup. simpl.
    rewrite (request_zip_submit_error asset_id content_type' submit Epost Herr).
    reflexivity.
Qed.

End MoreOrchestratorFacts.

Lemma detect_soft_failure_witness :
  @detect demo_builtins (demo_libraries json_only_archive demo_answer) demo_imaging
    pending_transport one_byte "find all objects" ""
  = Ok ([], [Byte.x89; Byte.x50]).
Proof.
  refine (eq_trans
            (@detect_soft_failure demo_builtins
               (demo_libraries json_only_archive demo_answer) demo_imaging
               pending_transport one_byte "find all objects" ""
               "3f2b8c1e-0000-4000-8000-000000000001" (answer 202 [])
               eq_refl eq_refl eq_refl _)
            eq_refl).
  intros k _. exists (answer 202 one_byte). split; reflexivity.
Defined.

Lemma detect_hard_failure_witness :
  @Image_open demo_imaging [] = Raise (LibraryError "PIL")
  /\ @detect demo_builtins (demo_libraries json_only_archive demo_answer) demo_imaging
       failing_detection_transport [] "find all objects" "image/jpeg"
     = Raise (HTTPError 500).
Proof.
  split; [reflexivity |].
  apply (proj2 (@detect_hard_failure demo_builtins
                  (demo_libraries json_only_archive demo_answer) demo_imaging
                  failing_detection_transport [] "find all objects" "image/jpeg")
           "3f2b8c1e-0000-4000-8000-000000000001" (answer 500 one_byte) eq_refl eq_refl).
  simpl. lia.
Defined.
